(** * Text-detection dataset viewer: MSRA-TD500 parser and navigation state

    A shallow embedding of

    - [src/datasets/MSRA_TD500.py]
      ([MSRA_TD500_annotation], [MSRA_TD500_dataset]), and
    - [src/viewer/viewer_modules/viewer_dataset.py]
      ([ViewerDataset] and its inner class [Subset]),

    together with the properties of the specification that concern them.

    Conventions of the embedding.

    - A Python [int] is a [Z]; a Python [str] is a [string] whose characters
      are the code points below 256.
    - A Python function that may raise returns a [result]; the exception
      that escapes is the [Err] payload.  A method that mutates [self]
      returns the new object next to its value; what an object holds after
      one of its methods has raised is not tracked.
    - A Python [dict] is an association list in insertion order
      (the order of [dict.keys()]).
    - Coordinates produced by the rotation are real numbers ([R]): the
      idealisation of Python's [float]. *)

From Stdlib Require Import ZArith List Bool Ascii String Lia.
From Stdlib Require Import Reals Lra.
From Stdlib Require Import Permutation.
Import ListNotations.

Open Scope string_scope.
Open Scope Z_scope.

(* ================================================================== *)
(** * Exceptions and fallible computations *)
(* ================================================================== *)

(** What a [ValueError] raised by the parser says.  The text of the
    message is built from the offending token alone. *)
Inductive value_error : Type :=
| NotEnoughValues (expected got : nat)
    (* "not enough values to unpack (expected 7, got n)" *)
| TooManyValues (expected : nat)
    (* "too many values to unpack (expected 7)" *)
| InvalidIntLiteral (token : string)
    (* "invalid literal for int() with base 10: 'tok'" *)
| InvalidFloat (token : string)
    (* "could not convert string to float: 'tok'" *)
| EmptySequence.
    (* "min() arg is an empty sequence" *)

(** The exceptions.  The first five are the Python built-ins the source can
    raise.  The last four are the names of the specification's error
    taxonomy; they are listed so that statements about them can be written
    down, and no function of this development ever produces them. *)
Inductive exn : Type :=
| ValueError (what : value_error)
| IndexError
| KeyError (key : string)
| ZeroDivisionError
| FileNotFoundError (path : string)
| ParseError (file : string) (line : nat)
| MissingResourceError (path : string)
| EmptyDatasetError
| InvalidSubsetError (name : string).

Inductive result (A : Type) : Type :=
| Ok (a : A)
| Err (e : exn).
Arguments Ok {A} a.
Arguments Err {A} e.

Definition bind {A B : Type} (m : result A) (k : A -> result B) : result B :=
  match m with
  | Ok a => k a
  | Err e => Err e
  end.

Declare Scope result_scope.
Delimit Scope result_scope with result.
Notation "x <- m ;; k" := (bind m (fun x => k))
  (at level 61, m at next level, right associativity) : result_scope.
Notation "' p <- m ;; k" := (bind m (fun p => k))
  (at level 61, p pattern, m at next level, right associativity) : result_scope.
Open Scope result_scope.

Definition is_ok {A : Type} (m : result A) : bool :=
  match m with Ok _ => true | Err _ => false end.

(** [for x in xs: ys.append(f(x))]: the first exception aborts the loop. *)
Fixpoint mapM {A B : Type} (f : A -> result B) (xs : list A) : result (list B) :=
  match xs with
  | [] => Ok []
  | x :: xs' =>
      y <- f x ;;
      ys <- mapM f xs' ;;
      Ok (y :: ys)
  end.

(* ================================================================== *)
(** * Python lists *)
(* ================================================================== *)

Definition len {A : Type} (l : list A) : Z := Z.of_nat (List.length l).

(** [l[i]]: a negative index counts from the end; outside
    [-len(l) <= i < len(l)] it raises [IndexError]. *)
Definition getitem {A : Type} (l : list A) (i : Z) : result A :=
  let j := if i <? 0 then i + len l else i in
  if (j <? 0) || (len l <=? j) then Err IndexError
  else match nth_error l (Z.to_nat j) with
       | Some a => Ok a
       | None => Err IndexError
       end.

(** [a % b] on Python ints: the result has the sign of [b], as [Z.modulo]
    has; a zero divisor raises. *)
Definition py_mod (a b : Z) : result Z :=
  if b =? 0 then Err ZeroDivisionError else Ok (a mod b).

(* ================================================================== *)
(** * [ViewerDataset.Subset]: a cursor over a list of samples *)
(* ================================================================== *)

Module Subset.
Section Cursor.

(** The samples are not inspected by the cursor. *)
Context {Sample : Type}.

Record t : Type := mk {
  _subset : list Sample;
  _current_idx : Z
}.

(** [Subset(subset, start_idx=0)] *)
Definition init (subset : list Sample) (start_idx : Z) : t :=
  mk subset start_idx.

(** [self._current_idx = (self._current_idx + 1) % len(self._subset)]
    [return self._subset[self._current_idx]] *)
Definition next_sample (s : t) : result (t * Sample) :=
  idx <- py_mod (_current_idx s + 1) (len (_subset s)) ;;
  let s' := mk (_subset s) idx in
  x <- getitem (_subset s') (_current_idx s') ;;
  Ok (s', x).

(** [idx = self._current_idx - 1]
    [self._current_idx = idx if idx >= 0 else len(self._subset) - 1]
    [return self._subset[self._current_idx]] *)
Definition previous_sample (s : t) : result (t * Sample) :=
  let idx := _current_idx s - 1 in
  let s' := mk (_subset s) (if 0 <=? idx then idx else len (_subset s) - 1) in
  x <- getitem (_subset s') (_current_idx s') ;;
  Ok (s', x).

(** [self._current_idx = idx] *)
Definition set_index (s : t) (idx : Z) : t :=
  mk (_subset s) idx.

Definition get_current_sample (s : t) : result Sample :=
  getitem (_subset s) (_current_idx s).

Definition get_current_index (s : t) : Z := _current_idx s.

(** [n] successive calls of a method; the value is that of the last call
    ([None] when there was no call). *)
Fixpoint call_times (step : t -> result (t * Sample)) (n : nat) (s : t)
  : result (t * option Sample) :=
  match n with
  | O => Ok (s, None)
  | S n' =>
      '(s1, _) <- call_times step n' s ;;
      '(s2, x) <- step s1 ;;
      Ok (s2, Some x)
  end.

End Cursor.
Arguments t : clear implicits.
End Subset.

(* ================================================================== *)
(** * Python strings *)
(* ================================================================== *)

Definition code (c : ascii) : nat := nat_of_ascii c.

(** [c.isspace()] on the code points below 256: TAB, LF, VT, FF, CR, the
    four separators FS, GS, RS, US, the space, NEL and the no-break
    space. *)
Definition isspace (c : ascii) : bool :=
  let n := code c in
  ((9 <=? n) && (n <=? 13))%nat || ((28 <=? n) && (n <=? 32))%nat
  || (n =? 133)%nat || (n =? 160)%nat.

(** [s.split()] with no argument: the maximal runs of non-space
    characters, in order; [tok] is the run being read. *)
Fixpoint split_from (s : string) (tok : string) : list string :=
  match s with
  | EmptyString => if (tok =? "")%string then [] else [tok]
  | String c s' =>
      if isspace c then
        if (tok =? "")%string then split_from s' ""
        else tok :: split_from s' ""
      else split_from s' (tok ++ String c "")
  end.

Definition split (s : string) : list string := split_from s "".

Definition digit_of (c : ascii) : option Z :=
  let n := code c in
  if ((48 <=? n) && (n <=? 57))%nat then Some (Z.of_nat n - 48) else None.

(** The digits of a decimal literal: single underscores are allowed
    between two digits, nowhere else.  [acc] is the value read so far,
    [after_digit] tells whether the previous character was a digit. *)
Fixpoint int_digits (s : string) (acc : Z) (after_digit : bool) : option Z :=
  match s with
  | EmptyString => if after_digit then Some acc else None
  | String c s' =>
      if (c =? "_")%char then
        if after_digit then int_digits s' acc false else None
      else
        match digit_of c with
        | Some d => int_digits s' (10 * acc + d) true
        | None => None
        end
  end.

Definition int_literal (tok : string) : option Z :=
  match tok with
  | String "+" r => int_digits r 0 false
  | String "-" r => option_map Z.opp (int_digits r 0 false)
  | _ => int_digits tok 0 false
  end.

(** [int(tok)] in base 10 on a token that holds no white space (the
    tokens of [split] hold none, so the stripping that [int] does first
    changes nothing).  The interpreter's run-time limit on the number of
    digits is not modelled. *)
Definition py_int (tok : string) : result Z :=
  match int_literal tok with
  | Some z => Ok z
  | None => Err (ValueError (InvalidIntLiteral tok))
  end.

(** [a, b, c, d, e, f, g = tokens] *)
Definition unpack7 (tokens : list string)
  : result (string * string * string * string * string * string * string) :=
  match tokens with
  | [a; b; c; d; e; f; g] => Ok (a, b, c, d, e, f, g)
  | _ =>
      if (List.length tokens <? 7)%nat
      then Err (ValueError (NotEnoughValues 7 (List.length tokens)))
      else Err (ValueError (TooManyValues 7))
  end.

(* ================================================================== *)
(** * Enclosing box: [min]/[max] with a key *)
(* ================================================================== *)

Open Scope R_scope.

Definition point : Type := (R * R)%type.

(** [min(points, key=...)]: the first item whose key is smallest; an item
    replaces the best one only when its key is strictly smaller. *)
Fixpoint min_from {A : Type} (key : A -> R) (best : A) (rest : list A) : A :=
  match rest with
  | [] => best
  | p :: rest' =>
      min_from key (if Rlt_dec (key p) (key best) then p else best) rest'
  end.

(** [max(points, key=...)]: strictly greater replaces. *)
Fixpoint max_from {A : Type} (key : A -> R) (best : A) (rest : list A) : A :=
  match rest with
  | [] => best
  | p :: rest' =>
      max_from key (if Rgt_dec (key p) (key best) then p else best) rest'
  end.

Definition py_min {A : Type} (key : A -> R) (l : list A) : result A :=
  match l with
  | [] => Err (ValueError EmptySequence)
  | p :: rest => Ok (min_from key p rest)
  end.

Definition py_max {A : Type} (key : A -> R) (l : list A) : result A :=
  match l with
  | [] => Err (ValueError EmptySequence)
  | p :: rest => Ok (max_from key p rest)
  end.

(* ================================================================== *)
(** * [MSRA_TD500_annotation] *)
(* ================================================================== *)

(** Modelled from the spec: the base class [BaseTextDetectionAnnotation]
    (file [datasets/base_text_detection_dataset.py]) is not among the
    sources.  Section 3 gives an annotation the four coordinates and an
    optional label and text; the viewer reads [x1], [y1], [x2], [y2],
    [label] and [text]. *)
Record BaseTextDetectionAnnotation : Type := mkBase {
  x1 : R; y1 : R; x2 : R; y2 : R;
  label : option string;
  text : option string
}.

Record MSRA_TD500_annotation : Type := mkAnnot {
  base :> BaseTextDetectionAnnotation;
  difficult : bool;
  idx : Z
}.

Definition int_point (p : Z * Z) : point := (IZR (fst p), IZR (snd p)).

Module MSRA.
Section Parser.

(** Python's [float] values and [float(tok)] on a token ([None]: it
    raises [ValueError]).  The angle is only handed on to
    [rotate_rectangle]. *)
Variable float : Type.
Variable py_float : string -> option float.

(** [utils.numpy_utils.numpy_functions.rotate_rectangle], which is not
    among the sources: the parser is stated for any such function. *)
Variable rotate_rectangle : list (Z * Z) -> float -> list point.

(** The corner list that [normalize_bboxes] builds:
    [[(xlu, ylu), (xld, yld), (xrd, yrd), (xru, yru)]]. *)
Definition corners (x y w h : Z) : list (Z * Z) :=
  let xlu := x in
  let ylu := y in
  let xrd := (xlu + w)%Z in
  let yrd := (ylu + h)%Z in
  let xld := xlu in
  let yld := yrd in
  let xru := xrd in
  let yru := ylu in
  [(xlu, ylu); (xld, yld); (xrd, yrd); (xru, yru)].

(** [normalize_bboxes(x, y, w, h, angle)]; [x], [y], [w], [h] are already
    ints, so the [int(...)] calls on them are the identity. *)
Definition normalize_bboxes (x y w h : Z) (angle : string)
  : result (R * R * R * R) :=
  angle <- match py_float angle with
           | Some a => Ok a
           | None => Err (ValueError (InvalidFloat angle))
           end ;;
  let points := corners x y w h in
  let points := rotate_rectangle points angle in
  px1 <- py_min fst points ;;
  px2 <- py_max fst points ;;
  py1 <- py_min snd points ;;
  py2 <- py_max snd points ;;
  Ok (fst px1, snd py1, fst px2, snd py2).

(** [MSRA_TD500_annotation(annot_str)] *)
Definition annotation (annot_str : string) : result MSRA_TD500_annotation :=
  '(idx, difficult, x, y, w, h, angle) <- unpack7 (split annot_str) ;;
  let difficult := (difficult =? "1")%string in
  idx <- py_int idx ;;
  x <- py_int x ;;
  y <- py_int y ;;
  w <- py_int w ;;
  h <- py_int h ;;
  '(x1, y1, x2, y2) <- normalize_bboxes x y w h angle ;;
  Ok (mkAnnot (mkBase x1 y1 x2 y2 None None) difficult idx).

End Parser.
End MSRA.

Close Scope R_scope.

(* ================================================================== *)
(** * Python dicts *)
(* ================================================================== *)

Module Dict.
Section Dict.
Context {V : Type}.

(** Keys in insertion order. *)
Definition t : Type := list (string * V).

Definition keys (d : t) : list string := map fst d.

(** [d[k] = v]: an existing key keeps its place. *)
Fixpoint set (d : t) (k : string) (v : V) : t :=
  match d with
  | [] => [(k, v)]
  | (k', v') :: d' =>
      if (k' =? k)%string then (k, v) :: d' else (k', v') :: set d' k v
  end.

Fixpoint find (d : t) (k : string) : option V :=
  match d with
  | [] => None
  | (k', v) :: d' => if (k' =? k)%string then Some v else find d' k
  end.

(** [d[k]] *)
Definition get (d : t) (k : string) : result V :=
  match find d k with
  | Some v => Ok v
  | None => Err (KeyError k)
  end.

Definition mem (d : t) (k : string) : bool :=
  match find d k with Some _ => true | None => false end.

End Dict.
Arguments t : clear implicits.
End Dict.

(* ================================================================== *)
(** * The files under the dataset folder *)
(* ================================================================== *)

(** What the parser sees of the file system: the entry names of a
    directory ([None]: there is no such directory) and the lines of a text
    file as [readlines] returns them ([None]: there is no such file). *)
Record file_system : Type := mkFS {
  listdir : string -> option (list string);
  readlines : string -> option (list string)
}.

(** [folder / name] *)
Definition joinpath (folder name : string) : string := folder ++ "/" ++ name.

(** [name] matches the pattern [*suffix]. *)
Definition endswith (name suffix : string) : bool :=
  let n := String.length name in
  let k := String.length suffix in
  (k <=? n)%nat && (substring (n - k) k name =? suffix)%string.

(** [list(set_dir.glob('*' + suffix))]; a directory that does not exist
    has no match. *)
Definition glob (fs : file_system) (set_dir suffix : string) : list string :=
  match listdir fs set_dir with
  | None => []
  | Some names =>
      map (joinpath set_dir) (filter (fun n => endswith n suffix) names)
  end.

(** [paths.sort()]: paths of one directory are ordered as their strings
    are, code point by code point. *)
Fixpoint insert_sorted (p : string) (l : list string) : list string :=
  match l with
  | [] => [p]
  | q :: l' => if String.leb p q then p :: l else q :: insert_sorted p l'
  end.

Definition sort (l : list string) : list string :=
  fold_right insert_sorted [] l.

(* ================================================================== *)
(** * [MSRA_TD500_dataset] *)
(* ================================================================== *)

(** Modelled from the spec: the base class [BaseTextDetectionSample] is
    not among the sources.  Section 3: a sample is an image path and the
    ordered list of its annotations. *)
Record MSRA_TD500_sample : Type := mkSample {
  img_pth : string;
  annotations : list MSRA_TD500_annotation
}.

Module Dataset.

(** Modelled from the spec: the base class [BaseTextDetectionDataset] is
    not among the sources.  Section 3: a dataset holds its root path and
    a mapping from subset name to the ordered samples; the source
    writes the mapping through [self._subsets] and reads it through
    [get_subsets_names()] and [dataset[name]]. *)
Record t : Type := mk {
  dset_folder : string;
  _subsets : Dict.t (list MSRA_TD500_sample)
}.

(** Modelled from the spec: [BaseTextDetectionDataset.__init__], which
    leaves the mapping empty for the subclass to fill. *)
Definition base_init (dset_folder : string) : t := mk dset_folder [].

(** Modelled from the spec: the subset names are the keys of the
    mapping. *)
Definition get_subsets_names (d : t) : list string := Dict.keys (_subsets d).

(** Modelled from the spec: [dataset[name]] is the subset of that
    name. *)
Definition getitem (d : t) (name : string) : result (list MSRA_TD500_sample) :=
  Dict.get (_subsets d) name.

(** [self._subsets[name] = samples] *)
Definition set_subset (d : t) (name : string) (samples : list MSRA_TD500_sample) : t :=
  mk (dset_folder d) (Dict.set (_subsets d) name samples).

End Dataset.

Module MSRA_TD500_dataset.
Section Reader.

Variable float : Type.
Variable py_float : string -> option float.
Variable rotate_rectangle : list (Z * Z) -> float -> list point.
Variable fs : file_system.

(** [read_annotation_file(annot_pth)].  Of the failures of [open] and
    [readlines] only that of a missing file is modelled; the statements
    below that name what is raised are about files that have been read. *)
Definition read_annotation_file (annot_pth : string)
  : result (list MSRA_TD500_annotation) :=
  lines <- match readlines fs annot_pth with
           | Some lines => Ok lines
           | None => Err (FileNotFoundError annot_pth)
           end ;;
  mapM (MSRA.annotation float py_float rotate_rectangle) lines.

(** [read_set(set_dir)] *)
Definition read_set (set_dir : string) : result (list MSRA_TD500_sample) :=
  let annots_files := sort (glob fs set_dir ".gt") in
  let img_pths := sort (glob fs set_dir ".JPG") in
  mapM (fun '(annot_file, img_pth) =>
          annots <- read_annotation_file annot_file ;;
          Ok (mkSample img_pth annots))
       (combine annots_files img_pths).

(** [MSRA_TD500_dataset(dset_folder)] *)
Definition init (dset_folder : string) : result Dataset.t :=
  let self := Dataset.base_init dset_folder in
  let train_dir := joinpath (Dataset.dset_folder self) "train" in
  let test_dir := joinpath (Dataset.dset_folder self) "test" in
  train <- read_set train_dir ;;
  let self := Dataset.set_subset self "train" train in
  test <- read_set test_dir ;;
  let self := Dataset.set_subset self "test" test in
  Ok self.

End Reader.
End MSRA_TD500_dataset.

(* ================================================================== *)
(** * [ViewerDataset] *)
(* ================================================================== *)

Module ViewerDataset.

Local Abbreviation Sample := MSRA_TD500_sample.

Record t : Type := mk {
  _subsets : Dict.t (Subset.t Sample);
  _current_subset : string
}.

(** The dict comprehension of [__init__]:
    [{name: Subset(dataset[name]) for name in names if len(dataset[name]) != 0}] *)
Fixpoint comprehension (dataset : Dataset.t) (names : list string)
    (acc : Dict.t (Subset.t Sample)) : result (Dict.t (Subset.t Sample)) :=
  match names with
  | [] => Ok acc
  | subset_name :: names' =>
      samples <- Dataset.getitem dataset subset_name ;;
      if negb (len samples =? 0) then
        samples <- Dataset.getitem dataset subset_name ;;
        comprehension dataset names'
          (Dict.set acc subset_name (Subset.init samples 0))
      else comprehension dataset names' acc
  end.

(** [ViewerDataset(dataset)] *)
Definition init (dataset : Dataset.t) : result t :=
  subsets <- comprehension dataset (Dataset.get_subsets_names dataset) [] ;;
  current <- getitem (Dict.keys subsets) 0 ;;
  Ok (mk subsets current).

Definition available_subsets (v : t) : list string := Dict.keys (_subsets v).

Definition get_current_subset (v : t) : result (Subset.t Sample) :=
  Dict.get (_subsets v) (_current_subset v).

Definition get_current_subset_name (v : t) : string := _current_subset v.

(** [self._current_subset = subset_name]; the method has no [raise] and
    calls nothing, so it always returns. *)
Definition set_current_subset (v : t) (subset_name : string) : result t :=
  Ok (mk (_subsets v) subset_name).

(** The cursor is an object shared with the dict: its new state is
    written back under the same key. *)
Definition next_sample (v : t) : result (t * Sample) :=
  s <- Dict.get (_subsets v) (_current_subset v) ;;
  '(s', x) <- Subset.next_sample s ;;
  Ok (mk (Dict.set (_subsets v) (_current_subset v) s') (_current_subset v), x).

Definition previous_sample (v : t) : result (t * Sample) :=
  s <- Dict.get (_subsets v) (_current_subset v) ;;
  '(s', x) <- Subset.previous_sample s ;;
  Ok (mk (Dict.set (_subsets v) (_current_subset v) s') (_current_subset v), x).

Definition get_current_sample (v : t) : result Sample :=
  s <- get_current_subset v ;;
  Subset.get_current_sample s.

Definition get_current_index (v : t) : result Z :=
  s <- get_current_subset v ;;
  Ok (Subset.get_current_index s).

End ViewerDataset.

(* ================================================================== *)
(** * The geometry module and the float literals *)
(* ================================================================== *)

Module Geometry.
Open Scope R_scope.

Definition deg2rad (angle : R) : R := angle * PI / 180.

(** Modelled from the spec: section 4.1, the standard 2D rotation by
    [theta] about [pivot]:
    [x' = pivot.x + (x - pivot.x) cos theta - (y - pivot.y) sin theta],
    [y' = pivot.y + (x - pivot.x) sin theta + (y - pivot.y) cos theta]. *)
Definition rotate_point (theta : R) (pivot p : point) : point :=
  let '(px, py) := pivot in
  let '(x, y) := p in
  (px + (x - px) * cos theta - (y - py) * sin theta,
   py + (x - px) * sin theta + (y - py) * cos theta).

(** Modelled from the spec: section 4.1, [rotate_points(points, angle,
    pivot)] rotates each point by [angle], given in degrees, about
    [pivot]. *)
Definition rotate_points (points : list point) (angle : R) (pivot : point)
  : list point :=
  map (rotate_point (deg2rad angle) pivot) points.

(** Modelled from the spec: [rotate_rectangle(points, angle)] of
    [utils/numpy_utils/numpy_functions.py] is not among the sources.
    Section 4.1: with no pivot given, the rotation is about the
    rectangle's own first corner. *)
Definition rotate_rectangle (points : list (Z * Z)) (angle : R) : list point :=
  match points with
  | [] => []
  | p0 :: _ => rotate_points (map int_point points) angle (int_point p0)
  end.

Definition Rmin_list (x : R) (xs : list R) : R := fold_left Rmin xs x.
Definition Rmax_list (x : R) (xs : list R) : R := fold_left Rmax xs x.

(** Modelled from the spec: section 4.1, [enclosing_box(points)] returns
    [min(x), min(y), max(x), max(y)] over the point set. *)
Definition enclosing_box (points : list point) : option (R * R * R * R) :=
  match points with
  | [] => None
  | (x, y) :: rest =>
      Some (Rmin_list x (map fst rest), Rmin_list y (map snd rest),
            Rmax_list x (map fst rest), Rmax_list y (map snd rest))
  end.

Close Scope R_scope.
End Geometry.

(** The digits of a plain decimal literal, with at most one point:
    [acc] is the number read with the point left out, [places] counts the
    digits after the point once it has been met. *)
Fixpoint scan_decimal (s : string) (acc : Z) (places : option nat)
    (seen_digit : bool) : option (Z * nat) :=
  match s with
  | EmptyString =>
      if seen_digit
      then Some (acc, match places with Some k => k | None => O end)
      else None
  | String c s' =>
      if (c =? ".")%char then
        match places with
        | None => scan_decimal s' acc (Some O) seen_digit
        | Some _ => None
        end
      else
        match digit_of c with
        | Some d => scan_decimal s' (10 * acc + d) (option_map S places) true
        | None => None
        end
  end.

Definition decimal_literal (tok : string) : option (Z * nat) :=
  match tok with
  | String "+" r => scan_decimal r 0 None false
  | String "-" r =>
      option_map (fun '(m, k) => (- m, k)) (scan_decimal r 0 None false)
  | _ => scan_decimal tok 0 None false
  end.

(** [float(tok)] on the plain decimal literals [[sign] digits [. digits]],
    with the value taken as the exact real.  The other literals that
    Python's [float] reads (exponents, underscores, [inf], [nan]) are
    outside this fragment: a [None] here says nothing about them. *)
Definition py_float_decimal (tok : string) : option R :=
  option_map (fun '(m, k) => (IZR m / IZR (10 ^ Z.of_nat k))%R)
             (decimal_literal tok).

(** The parser and the reader with the geometry module above and the
    decimal literals. *)
Definition annotation_of (annot_str : string) : result MSRA_TD500_annotation :=
  MSRA.annotation R py_float_decimal Geometry.rotate_rectangle annot_str.

Definition open_dataset (fs : file_system) (dset_folder : string)
  : result Dataset.t :=
  MSRA_TD500_dataset.init R py_float_decimal Geometry.rotate_rectangle fs
    dset_folder.

(* ================================================================== *)
(** * Malformed records and example folders *)
(* ================================================================== *)

Definition is_some {A : Type} (o : option A) : bool :=
  match o with Some _ => true | None => false end.

(** A record is malformed when it has not exactly seven tokens, or when
    its index, x, y, w or h is not an integer literal, or when its angle is
    not read by [float]. *)
Definition malformed {float : Type} (py_float : string -> option float)
    (annot_str : string) : bool :=
  match split annot_str with
  | [t_idx; _; t_x; t_y; t_w; t_h; t_angle] =>
      negb (is_ok (py_int t_idx) && is_ok (py_int t_x) && is_ok (py_int t_y)
            && is_ok (py_int t_w) && is_ok (py_int t_h)
            && is_some (py_float t_angle))
  | _ => true
  end.

(** The annotation files that [read_set] opens: those that [zip] pairs
    with an image. *)
Definition paired_annotation_files (fs : file_system) (set_dir : string)
  : list string :=
  map fst (combine (sort (glob fs set_dir ".gt")) (sort (glob fs set_dir ".JPG"))).

Definition nl : string := String (ascii_of_nat 10) "".

Definition record_1 : string := "1 0 10 20 30 40 0.0" ++ nl.
Definition record_2 : string := "2 1 0 0 10 10 90.0" ++ nl.

Definition annot_1 : MSRA_TD500_annotation :=
  mkAnnot (mkBase 10 20 40 60 None None) false 1.

(** A dataset root with a [train] folder of one image and its annotation
    file, and no [test] folder. *)
Definition fs_train_only : file_system :=
  mkFS (fun d => if (d =? "MSRA_TD500/train")%string
                 then Some ["IMG_0001.gt"; "IMG_0001.JPG"] else None)
       (fun p => if (p =? "MSRA_TD500/train/IMG_0001.gt")%string
                 then Some [record_1] else None).

(** A [train] folder in which the image of the first annotation file is
    missing. *)
Definition fs_unpaired : file_system :=
  mkFS (fun d => if (d =? "MSRA_TD500/train")%string
                 then Some ["IMG_0002.gt"; "IMG_0001.gt"; "IMG_0002.JPG"]
                 else None)
       (fun p => if (p =? "MSRA_TD500/train/IMG_0001.gt")%string
                 then Some [record_1]
                 else if (p =? "MSRA_TD500/train/IMG_0002.gt")%string
                 then Some [record_2] else None).


Definition sample_of (img : string) : MSRA_TD500_sample := mkSample img [].

(** A dataset whose two subsets are empty. *)
Definition dataset_all_empty : Dataset.t :=
  Dataset.mk "MSRA_TD500" [("train", []); ("test", [])].

(** A dataset with two samples to train on and one to test on. *)
Definition dataset_train_test : Dataset.t :=
  Dataset.mk "MSRA_TD500"
    [("train", [sample_of "MSRA_TD500/train/IMG_0001.JPG";
                sample_of "MSRA_TD500/train/IMG_0002.JPG"]);
     ("test", [sample_of "MSRA_TD500/test/IMG_0003.JPG"])].

Definition viewer_train_test : ViewerDataset.t :=
  ViewerDataset.mk
    [("train", Subset.init (Sample := MSRA_TD500_sample)
                 [sample_of "MSRA_TD500/train/IMG_0001.JPG";
                  sample_of "MSRA_TD500/train/IMG_0002.JPG"] 0);
     ("test", Subset.init [sample_of "MSRA_TD500/test/IMG_0003.JPG"] 0)]
    "train".

(* ================================================================== *)
(** * Sequences of navigation calls *)
(* ================================================================== *)

(** [ViewerDataset.__getitem__]: [self._subsets[subset_name]]. *)
Definition viewer_getitem (v : ViewerDataset.t) (subset_name : string)
  : result (Subset.t MSRA_TD500_sample) :=
  Dict.get (ViewerDataset._subsets v) subset_name.

(** The cursor is a valid index of its list (which is then not empty). *)
Definition cursor_in_range {A : Type} (s : Subset.t A) : bool :=
  (0 <=? Subset._current_idx s)
  && (Subset._current_idx s <? len (Subset._subset s)).

(** The current name is a key and every cursor is in range. *)
Definition navigable (v : ViewerDataset.t) : bool :=
  Dict.mem (ViewerDataset._subsets v) (ViewerDataset._current_subset v)
  && forallb (fun kv => cursor_in_range (snd kv)) (ViewerDataset._subsets v).

(** The calls that the window makes on its [ViewerDataset]: the two
    buttons and the choice of a subset in the combo box. *)
Inductive action : Type :=
| Next
| Previous
| Select (subset_name : string).

Definition perform (v : ViewerDataset.t) (a : action) : result ViewerDataset.t :=
  match a with
  | Next => '(v', _) <- ViewerDataset.next_sample v ;; Ok v'
  | Previous => '(v', _) <- ViewerDataset.previous_sample v ;; Ok v'
  | Select subset_name => ViewerDataset.set_current_subset v subset_name
  end.

Fixpoint perform_all (v : ViewerDataset.t) (actions : list action)
  : result ViewerDataset.t :=
  match actions with
  | [] => Ok v
  | a :: actions' => v' <- perform v a ;; perform_all v' actions'
  end.

(** The combo box only offers the available subsets. *)
Definition offered (names : list string) (a : action) : bool :=
  match a with
  | Select subset_name => existsb (String.eqb subset_name) names
  | _ => true
  end.

(** The two buttons, as opposed to the combo box. *)
Definition is_move (a : action) : bool :=
  match a with Select _ => false | _ => true end.

(** [ViewerDataset(MSRA_TD500_dataset(dset_pth))], the call of
    [ViewerWindow.load_dataset] on a folder of this format. *)
Definition load_viewer (float : Type) (py_float : string -> option float)
    (rotate_rectangle : list (Z * Z) -> float -> list point)
    (fs : file_system) (dset_pth : string) : result ViewerDataset.t :=
  dataset <- MSRA_TD500_dataset.init float py_float rotate_rectangle fs dset_pth ;;
  ViewerDataset.init dataset.

(** The subsets that the comprehension of [ViewerDataset.__init__] keeps. *)
Definition nonempty_subset (kv : string * list MSRA_TD500_sample) : bool :=
  negb (len (snd kv) =? 0).

Definition cursor_at_start (kv : string * list MSRA_TD500_sample)
  : string * Subset.t MSRA_TD500_sample :=
  (fst kv, Subset.init (snd kv) 0).

(* ================================================================== *)
(** * White space in records *)
(* ================================================================== *)

Fixpoint all_space (s : string) : bool :=
  match s with
  | EmptyString => true
  | String c s' => isspace c && all_space s'
  end.

(** A folder with the entries of [fs_unpaired] listed in another order. *)
Definition fs_unpaired_reordered : file_system :=
  mkFS (fun d => if (d =? "MSRA_TD500/train")%string
                 then Some ["IMG_0001.gt"; "IMG_0002.JPG"; "IMG_0002.gt"]
                 else None)
       (readlines fs_unpaired).

(** A root whose two folders hold one image and one annotation file
    each; the file of [test] has a record of five tokens. *)
Definition fs_bad_test : file_system :=
  mkFS (fun d => if (d =? "MSRA_TD500/train")%string
                 then Some ["IMG_0001.gt"; "IMG_0001.JPG"]
                 else if (d =? "MSRA_TD500/test")%string
                 then Some ["IMG_0009.gt"; "IMG_0009.JPG"]
                 else None)
       (fun p => if (p =? "MSRA_TD500/train/IMG_0001.gt")%string
                 then Some [record_1]
                 else if (p =? "MSRA_TD500/test/IMG_0009.gt")%string
                 then Some ["2 1 0 0 10" ++ nl] else None).

(* ================================================================== *)
(** * [draw_bounding_boxes] *)
(* ================================================================== *)

(** The calls that [draw_bounding_boxes] makes on its copy of the image:
    [cv2.rectangle(image, (x1, y1), (x2, y2), color, thickness)] and
    [cv2.putText(image, text, (x, y), 0, 0.3, color, 1)]. *)
Inductive draw_call : Type :=
| Rectangle (x1 y1 x2 y2 : Z) (color : Z * Z * Z) (thickness : Z)
| PutText (text : string) (x y : Z) (color : Z * Z * Z).

Module Draw.
Section Draw.

(** The labels ([str], [int] or [float] in the source) with Python's
    [==] and their formatting in an f-string; the confidences with
    ['{:.2f}'.format]; the coordinates with [int(...)]. *)
Variable Label : Type.
Variable label_eq : Label -> Label -> bool.
Variable str : Label -> string.
Variable Conf : Type.
Variable format_2f : Conf -> string.
Variable Coord : Type.
Variable int : Coord -> Z.

Definition Bbox : Type := (Coord * Coord * Coord * Coord)%type.

(** [label in exclude_classes] *)
Definition contains (exclude_classes : list Label) (label : Label) : bool :=
  existsb (fun c => label_eq label c) exclude_classes.

(** One turn of [for i, bbox in enumerate(bboxes)]: the calls it makes. *)
Definition draw_one (class_labels : option (list Label))
    (confidences : option (list Conf)) (line_width : Z) (color : Z * Z * Z)
    (exclude_classes : list Label) (i : Z) (bbox : Bbox)
  : result (list draw_call) :=
  excluded <- match class_labels with
              | Some labels =>
                  label <- getitem labels i ;;
                  Ok (contains exclude_classes label)
              | None => Ok false
              end ;;
  if excluded then Ok []
  else
    let '(x1, y1, x2, y2) := bbox in
    let '(x1, y1, x2, y2) := (int x1, int y1, int x2, int y2) in
    let rectangle := Rectangle x1 y1 x2 y2 color line_width in
    put_text <- match class_labels with
                | Some labels =>
                    label <- getitem labels i ;;
                    Ok ("cls: " ++ str label ++ " ")
                | None => Ok ""
                end ;;
    put_text <- match confidences with
                | Some confs =>
                    conf <- getitem confs i ;;
                    Ok (put_text ++ "conf: " ++ format_2f conf)
                | None => Ok put_text
                end ;;
    if negb (put_text =? "")%string
    then Ok [rectangle; PutText put_text x1 (y1 - 2) color]
    else Ok [rectangle].

Fixpoint draw_from (class_labels : option (list Label))
    (confidences : option (list Conf)) (line_width : Z) (color : Z * Z * Z)
    (exclude_classes : list Label) (i : Z) (bboxes : list Bbox)
  : result (list draw_call) :=
  match bboxes with
  | [] => Ok []
  | bbox :: bboxes' =>
      calls <- draw_one class_labels confidences line_width color
                 exclude_classes i bbox ;;
      calls' <- draw_from class_labels confidences line_width color
                  exclude_classes (i + 1) bboxes' ;;
      Ok (calls ++ calls')%list
  end.


End Draw.
End Draw.

Definition is_rectangle (c : draw_call) : bool :=
  match c with Rectangle _ _ _ _ _ _ => true | PutText _ _ _ _ => false end.

(* ================================================================== *)
(** * The primitives on small inputs *)
(* ================================================================== *)

Example split_strips_and_merges :
  split ("  1 0 10  20 30 40 0.0 " ++ nl) = ["1"; "0"; "10"; "20"; "30"; "40"; "0.0"].
Proof. reflexivity. Qed.

Example py_int_literals :
  py_int "+0012" = Ok 12 /\ py_int "-7" = Ok (-7) /\ py_int "1_000" = Ok 1000 /\
  py_int "1.5" = Err (ValueError (InvalidIntLiteral "1.5")) /\
  py_int "" = Err (ValueError (InvalidIntLiteral "")).
Proof. repeat split; reflexivity. Qed.

Example getitem_wraps_negative_indices :
  getitem ["a"; "b"; "c"] (-1) = Ok "c" /\
  getitem ["a"; "b"; "c"] 3 = Err IndexError /\
  getitem ["a"; "b"; "c"] (-4) = Err IndexError.
Proof. repeat split; reflexivity. Qed.

Example sort_is_by_code_point :
  sort ["d/IMG_10.gt"; "d/IMG_2.gt"; "d/IMG_1.gt"]
  = ["d/IMG_1.gt"; "d/IMG_10.gt"; "d/IMG_2.gt"].
Proof. reflexivity. Qed.

Example previous_wraps_to_the_end :
  Subset.previous_sample (Subset.init ["a"; "b"; "c"] 0)
  = Ok (Subset.init ["a"; "b"; "c"] 2, "c").
Proof. reflexivity. Qed.

Example next_wraps_to_the_start :
  Subset.next_sample (Subset.init ["a"; "b"; "c"] 2)
  = Ok (Subset.init ["a"; "b"; "c"] 0, "a").
Proof. reflexivity. Qed.

(* ================================================================== *)
(** * Properties of the cursor *)
(* ================================================================== *)

Section CursorFacts.
Context {A : Type}.
Implicit Types (l : list A) (i : Z).

Lemma len_pos_iff l : l <> [] <-> 0 < len l.
Proof.
  unfold len; destruct l; simpl; split; intros H; try lia; congruence.
Qed.

Lemma getitem_in_range l i :
  0 <= i < len l ->
  exists x, nth_error l (Z.to_nat i) = Some x /\ getitem l i = Ok x.
Proof.
  intros Hi. unfold getitem.
  assert (Hneg : (i <? 0) = false) by (apply Z.ltb_ge; lia).
  assert (Hhi : (len l <=? i) = false) by (apply Z.leb_gt; lia).
  cbv zeta. rewrite !Hneg, Hhi. simpl.
  destruct (nth_error l (Z.to_nat i)) as [x|] eqn:Hnth.
  - exists x; split; reflexivity.
  - apply nth_error_None in Hnth. unfold len in Hi. lia.
Qed.

Lemma next_sample_step l i :
  l <> [] ->
  exists x,
    nth_error l (Z.to_nat ((i + 1) mod len l)) = Some x /\
    Subset.next_sample (Subset.mk l i)
    = Ok (Subset.mk l ((i + 1) mod len l), x).
Proof.
  intros Hl. apply len_pos_iff in Hl.
  assert (Hr : 0 <= (i + 1) mod len l < len l) by (apply Z.mod_pos_bound; lia).
  destruct (getitem_in_range l _ Hr) as [x [Hnth Hget]].
  exists x; split; [exact Hnth|].
  unfold Subset.next_sample, py_mod; simpl.
  destruct (len l =? 0) eqn:Hz; [apply Z.eqb_eq in Hz; lia|].
  simpl. rewrite Hget. reflexivity.
Qed.

Lemma previous_sample_step l i :
  l <> [] -> 0 <= i < len l ->
  exists x,
    nth_error l (Z.to_nat ((i - 1) mod len l)) = Some x /\
    Subset.previous_sample (Subset.mk l i)
    = Ok (Subset.mk l ((i - 1) mod len l), x).
Proof.
  intros Hl Hi.
  assert (Hidx : (if 0 <=? i - 1 then i - 1 else len l - 1) = (i - 1) mod len l).
  { destruct (0 <=? i - 1) eqn:Hge.
    - apply Z.leb_le in Hge. rewrite Z.mod_small; lia.
    - apply Z.leb_gt in Hge. assert (i = 0) by lia. subst i.
      replace (0 - 1) with (-1 * len l + (len l - 1)) by lia.
      rewrite Z.add_comm, Z.mod_add by lia. rewrite Z.mod_small; lia. }
  assert (Hr : 0 <= (i - 1) mod len l < len l) by (apply Z.mod_pos_bound; lia).
  destruct (getitem_in_range l _ Hr) as [x [Hnth Hget]].
  exists x; split; [exact Hnth|].
  unfold Subset.previous_sample; simpl.
  rewrite Hidx, Hget. reflexivity.
Qed.

(** After [k] calls of [next_sample] the cursor has moved [k] places
    forward around the circle. *)
Lemma call_times_next l i (k : nat) :
  l <> [] -> 0 <= i < len l ->
  exists o,
    Subset.call_times Subset.next_sample k (Subset.mk l i)
    = Ok (Subset.mk l ((i + Z.of_nat k) mod len l), o) /\
    (k <> O -> o = nth_error l (Z.to_nat ((i + Z.of_nat k) mod len l))).
Proof.
  intros Hl Hi. induction k as [|k IH].
  - exists None. simpl. rewrite Z.add_0_r, Z.mod_small by lia.
    split; [reflexivity | congruence].
  - destruct IH as [o [Hk _]].
    destruct (next_sample_step l ((i + Z.of_nat k) mod len l) Hl)
      as [x [Hnth Hstep]].
    assert (Hm : ((i + Z.of_nat k) mod len l + 1) mod len l
                 = (i + Z.of_nat (S k)) mod len l).
    { rewrite Zplus_mod_idemp_l. f_equal. lia. }
    exists (Some x). cbn [Subset.call_times]. rewrite Hk. cbn [bind].
    rewrite Hstep. cbn [bind]. rewrite <- Hm. split; [reflexivity|].
    intros _. symmetry. exact Hnth.
Qed.

(** After [k] calls of [previous_sample] the cursor has moved [k] places
    backward around the circle. *)
Lemma call_times_previous l i (k : nat) :
  l <> [] -> 0 <= i < len l ->
  exists o,
    Subset.call_times Subset.previous_sample k (Subset.mk l i)
    = Ok (Subset.mk l ((i - Z.of_nat k) mod len l), o) /\
    (k <> O -> o = nth_error l (Z.to_nat ((i - Z.of_nat k) mod len l))).
Proof.
  intros Hl Hi. pose proof (proj1 (len_pos_iff l) Hl) as Hpos.
  induction k as [|k IH].
  - exists None. simpl. rewrite Z.sub_0_r, Z.mod_small by lia.
    split; [reflexivity | congruence].
  - destruct IH as [o [Hk _]].
    assert (Hr : 0 <= (i - Z.of_nat k) mod len l < len l)
      by (apply Z.mod_pos_bound; lia).
    destruct (previous_sample_step l _ Hl Hr) as [x [Hnth Hstep]].
    assert (Hm : ((i - Z.of_nat k) mod len l - 1) mod len l
                 = (i - Z.of_nat (S k)) mod len l).
    { rewrite Zminus_mod_idemp_l. f_equal. lia. }
    exists (Some x). cbn [Subset.call_times]. rewrite Hk. cbn [bind].
    rewrite Hstep. cbn [bind]. rewrite <- Hm. split; [reflexivity|].
    intros _. symmetry. exact Hnth.
Qed.

End CursorFacts.

(** C4.  Cursor circularity: over a non-empty sample list of length [n],
    from every starting index in [[0, n)], [n] calls of [next_sample]
    bring the cursor back to the starting index and the last call returns
    the sample at that index; the same holds for [n] calls of
    [previous_sample]. *)
Theorem cursor_circularity {A : Type} (l : list A) (start : Z) :
  l <> [] -> 0 <= start < len l ->
  exists x,
    nth_error l (Z.to_nat start) = Some x /\
    Subset.call_times Subset.next_sample (List.length l) (Subset.init l start)
    = Ok (Subset.init l start, Some x) /\
    Subset.call_times Subset.previous_sample (List.length l) (Subset.init l start)
    = Ok (Subset.init l start, Some x).
Proof.
  intros Hl Hs.
  assert (Hn : List.length l <> O) by (destruct l; simpl; congruence).
  destruct (getitem_in_range l start Hs) as [x [Hnth _]].
  destruct (call_times_next l start (List.length l) Hl Hs) as [o1 [H1 Ho1]].
  destruct (call_times_previous l start (List.length l) Hl Hs) as [o2 [H2 Ho2]].
  assert (Hfwd : (start + Z.of_nat (List.length l)) mod len l = start).
  { unfold len. replace (start + Z.of_nat (List.length l))
      with (start + 1 * Z.of_nat (List.length l)) by lia.
    rewrite Z.mod_add by (unfold len in Hs; lia).
    apply Z.mod_small. exact Hs. }
  assert (Hbwd : (start - Z.of_nat (List.length l)) mod len l = start).
  { unfold len. replace (start - Z.of_nat (List.length l))
      with (start + (-1) * Z.of_nat (List.length l)) by lia.
    rewrite Z.mod_add by (unfold len in Hs; lia).
    apply Z.mod_small. exact Hs. }
  rewrite Hfwd in H1, Ho1. rewrite Hbwd in H2, Ho2.
  exists x. split; [exact Hnth|].
  unfold Subset.init.
  rewrite H1, H2, (Ho1 Hn), (Ho2 Hn), Hnth. split; reflexivity.
Qed.

Lemma cursor_circularity_witness :
  exists x,
    nth_error ["a"; "b"; "c"] (Z.to_nat 1) = Some x /\
    Subset.call_times Subset.next_sample 3 (Subset.init ["a"; "b"; "c"] 1)
    = Ok (Subset.init ["a"; "b"; "c"] 1, Some x) /\
    Subset.call_times Subset.previous_sample 3 (Subset.init ["a"; "b"; "c"] 1)
    = Ok (Subset.init ["a"; "b"; "c"] 1, Some x).
Proof.
  apply (cursor_circularity ["a"; "b"; "c"] 1).
  - discriminate.
  - unfold len; simpl; lia.
Defined.

(** C10.  Over a non-empty sample list, whatever integer [set_index] has
    stored as the current index, one call of [next_sample] leaves the
    index within [[0, len(subset))] (it is the old index plus one, modulo
    the length) and returns the sample at that index. *)
Theorem next_sample_restores_range {A : Type} (s : Subset.t A) (i : Z) :
  Subset._subset s <> [] ->
  exists s' x,
    Subset.next_sample (Subset.set_index s i) = Ok (s', x) /\
    Subset._subset s' = Subset._subset s /\
    Subset._current_idx s' = (i + 1) mod len (Subset._subset s) /\
    0 <= Subset._current_idx s' < len (Subset._subset s') /\
    nth_error (Subset._subset s') (Z.to_nat (Subset._current_idx s')) = Some x /\
    Subset.get_current_sample s' = Ok x.
Proof.
  intros Hl. destruct s as [l j]. simpl in *.
  destruct (next_sample_step l i Hl) as [x [Hnth Hstep]].
  assert (Hr : 0 <= (i + 1) mod len l < len l)
    by (apply Z.mod_pos_bound; apply len_pos_iff; exact Hl).
  exists (Subset.mk l ((i + 1) mod len l)), x.
  unfold Subset.set_index; simpl.
  split; [exact Hstep|]. split; [reflexivity|]. split; [reflexivity|].
  split; [exact Hr|]. split; [exact Hnth|].
  unfold Subset.get_current_sample; simpl.
  destruct (getitem_in_range l _ Hr) as [y [Hy Hget]]. congruence.
Qed.

Lemma next_sample_restores_range_witness :
  exists s' x,
    Subset.next_sample (Subset.set_index (Subset.init ["a"; "b"; "c"] 0) (-7))
    = Ok (s', x) /\
    Subset._subset s' = ["a"; "b"; "c"] /\
    Subset._current_idx s' = (-7 + 1) mod 3 /\
    0 <= Subset._current_idx s' < len (Subset._subset s') /\
    nth_error (Subset._subset s') (Z.to_nat (Subset._current_idx s')) = Some x /\
    Subset.get_current_sample s' = Ok x.
Proof.
  refine (next_sample_restores_range (Subset.init ["a"; "b"; "c"] 0) (-7) _).
  simpl. discriminate.
Defined.

(* ================================================================== *)
(** * The enclosing box *)
(* ================================================================== *)

Section EnclosingBox.
Open Scope R_scope.
Context {A : Type}.
Variable key : A -> R.

Lemma min_from_key (best : A) (rest : list A) :
  key (min_from key best rest) = Geometry.Rmin_list (key best) (map key rest).
Proof.
  unfold Geometry.Rmin_list. revert best.
  induction rest as [|p rest IH]; intros best; simpl; [reflexivity|].
  rewrite IH. f_equal.
  unfold Rmin. destruct (Rlt_dec (key p) (key best)), (Rle_dec (key best) (key p));
    try reflexivity; lra.
Qed.

Lemma max_from_key (best : A) (rest : list A) :
  key (max_from key best rest) = Geometry.Rmax_list (key best) (map key rest).
Proof.
  unfold Geometry.Rmax_list. revert best.
  induction rest as [|p rest IH]; intros best; simpl; [reflexivity|].
  rewrite IH. f_equal.
  unfold Rmax. destruct (Rgt_dec (key p) (key best)), (Rle_dec (key best) (key p));
    try reflexivity; lra.
Qed.

End EnclosingBox.

Section ListBounds.
Open Scope R_scope.

Lemma Rmin_list_le_start (x : R) (xs : list R) : Geometry.Rmin_list x xs <= x.
Proof.
  unfold Geometry.Rmin_list. revert x.
  induction xs as [|y xs IH]; intros x; simpl; [lra|].
  pose proof (IH (Rmin x y)). pose proof (Rmin_l x y). lra.
Qed.

Lemma Rmin_list_lower (x : R) (xs : list R) :
  Forall (fun y => Geometry.Rmin_list x xs <= y) (x :: xs).
Proof.
  constructor; [apply Rmin_list_le_start|].
  unfold Geometry.Rmin_list. revert x.
  induction xs as [|y xs IH]; intros x; simpl; constructor.
  - pose proof (Rmin_list_le_start (Rmin x y) xs) as H.
    unfold Geometry.Rmin_list in H. pose proof (Rmin_r x y). lra.
  - apply IH.
Qed.

Lemma Rmin_list_In (x : R) (xs : list R) : In (Geometry.Rmin_list x xs) (x :: xs).
Proof.
  unfold Geometry.Rmin_list. revert x.
  induction xs as [|y xs IH]; intros x; simpl; [left; reflexivity|].
  destruct (IH (Rmin x y)) as [H|H].
  - rewrite <- H. unfold Rmin. destruct (Rle_dec x y); auto.
  - right; right; exact H.
Qed.

Lemma Rmax_list_ge_start (x : R) (xs : list R) : x <= Geometry.Rmax_list x xs.
Proof.
  unfold Geometry.Rmax_list. revert x.
  induction xs as [|y xs IH]; intros x; simpl; [lra|].
  pose proof (IH (Rmax x y)). pose proof (Rmax_l x y). lra.
Qed.

Lemma Rmax_list_upper (x : R) (xs : list R) :
  Forall (fun y => y <= Geometry.Rmax_list x xs) (x :: xs).
Proof.
  constructor; [apply Rmax_list_ge_start|].
  unfold Geometry.Rmax_list. revert x.
  induction xs as [|y xs IH]; intros x; simpl; constructor.
  - pose proof (Rmax_list_ge_start (Rmax x y) xs) as H.
    unfold Geometry.Rmax_list in H. pose proof (Rmax_r x y). lra.
  - apply IH.
Qed.

Lemma Rmax_list_In (x : R) (xs : list R) : In (Geometry.Rmax_list x xs) (x :: xs).
Proof.
  unfold Geometry.Rmax_list. revert x.
  induction xs as [|y xs IH]; intros x; simpl; [left; reflexivity|].
  destruct (IH (Rmax x y)) as [H|H].
  - rewrite <- H. unfold Rmax. destruct (Rle_dec x y); auto.
  - right; right; exact H.
Qed.

(** The box of section 4.1 encloses every point and touches the point set
    on each of its four sides. *)
Lemma enclosing_box_encloses (pts : list point) (bx1 by1 bx2 by2 : R) :
  Geometry.enclosing_box pts = Some (bx1, by1, bx2, by2) ->
  Forall (fun p => bx1 <= fst p <= bx2 /\ by1 <= snd p <= by2) pts /\
  In bx1 (map fst pts) /\ In by1 (map snd pts) /\
  In bx2 (map fst pts) /\ In by2 (map snd pts).
Proof.
  destruct pts as [|[x y] rest]; simpl; [discriminate|].
  intros H; injection H as <- <- <- <-.
  repeat split.
  - pose proof (Rmin_list_lower x (map fst rest)) as Hx1.
    pose proof (Rmax_list_upper x (map fst rest)) as Hx2.
    pose proof (Rmin_list_lower y (map snd rest)) as Hy1.
    pose proof (Rmax_list_upper y (map snd rest)) as Hy2.
    change (x :: map fst rest) with (map fst ((x, y) :: rest)) in Hx1, Hx2.
    change (y :: map snd rest) with (map snd ((x, y) :: rest)) in Hy1, Hy2.
    rewrite Forall_map in Hx1, Hx2, Hy1, Hy2.
    rewrite Forall_forall in *. intros p Hp.
    specialize (Hx1 p Hp). specialize (Hx2 p Hp).
    specialize (Hy1 p Hp). specialize (Hy2 p Hp). simpl in *. lra.
  - apply Rmin_list_In.
  - apply Rmin_list_In.
  - apply Rmax_list_In.
  - apply Rmax_list_In.
Qed.

End ListBounds.

(* ================================================================== *)
(** * The annotation parser *)
(* ================================================================== *)

Section ParserFacts.
Variable float : Type.
Variable py_float : string -> option float.
Variable rotate_rectangle : list (Z * Z) -> float -> list point.

Let annotation := MSRA.annotation float py_float rotate_rectangle.
Let normalize_bboxes := MSRA.normalize_bboxes float py_float rotate_rectangle.

(** What [normalize_bboxes] returns once the angle is read and the
    rotation has returned at least one point. *)
Lemma normalize_bboxes_value (x y w h : Z) (angle : string) (a : float)
    (p : point) (rest : list point) :
  py_float angle = Some a ->
  rotate_rectangle (MSRA.corners x y w h) a = p :: rest ->
  normalize_bboxes x y w h angle
  = Ok (Geometry.Rmin_list (fst p) (map fst rest),
        Geometry.Rmin_list (snd p) (map snd rest),
        Geometry.Rmax_list (fst p) (map fst rest),
        Geometry.Rmax_list (snd p) (map snd rest)).
Proof.
  intros Ha Hrot. unfold normalize_bboxes, MSRA.normalize_bboxes.
  rewrite Ha. cbn [bind]. rewrite Hrot. cbn [bind py_min py_max].
  rewrite !min_from_key, !max_from_key. reflexivity.
Qed.

(** The constructor on a record of seven tokens whose numeric fields are
    read without error. *)
Lemma annotation_value (annot_str t_idx t_dif t_x t_y t_w t_h t_angle : string)
    (i x y w h : Z) (box : R * R * R * R) :
  split annot_str = [t_idx; t_dif; t_x; t_y; t_w; t_h; t_angle] ->
  py_int t_idx = Ok i ->
  py_int t_x = Ok x -> py_int t_y = Ok y ->
  py_int t_w = Ok w -> py_int t_h = Ok h ->
  normalize_bboxes x y w h t_angle = Ok box ->
  annotation annot_str
  = Ok (let '(bx1, by1, bx2, by2) := box in
        mkAnnot (mkBase bx1 by1 bx2 by2 None None) (t_dif =? "1")%string i).
Proof.
  intros Hs Hi Hx Hy Hw Hh Hn. unfold annotation, MSRA.annotation.
  rewrite Hs. cbn [unpack7 bind]. rewrite Hi. cbn [bind].
  rewrite Hx. cbn [bind]. rewrite Hy. cbn [bind].
  rewrite Hw. cbn [bind]. rewrite Hh. cbn [bind].
  fold normalize_bboxes. rewrite Hn. cbn [bind].
  destruct box as [[[bx1 by1] bx2] by2]. reflexivity.
Qed.

End ParserFacts.

(** C1.  For a record of seven tokens [index difficult x y w h angle]
    whose index, x, y, w, h read as integers and whose angle reads as a
    float, the constructor (a) builds the corners [(x,y)], [(x,y+h)],
    [(x+w,y+h)], [(x+w,y)] in this order, (b) hands them with the angle to
    [rotate_rectangle], (c) stores as [(x1, y1, x2, y2)] the enclosing
    box of the points returned: the least and greatest of their x's and
    y's, and (d) stores [difficult] as the test that the second token is
    ["1"]. *)
Theorem annotation_is_enclosing_box_of_rotated_corners
    (float : Type) (py_float : string -> option float)
    (rotate_rectangle : list (Z * Z) -> float -> list point)
    (annot_str t_idx t_dif t_x t_y t_w t_h t_angle : string)
    (i x y w h : Z) (a : float) :
  split annot_str = [t_idx; t_dif; t_x; t_y; t_w; t_h; t_angle] ->
  py_int t_idx = Ok i ->
  py_int t_x = Ok x -> py_int t_y = Ok y ->
  py_int t_w = Ok w -> py_int t_h = Ok h ->
  py_float t_angle = Some a ->
  let rotated := rotate_rectangle [(x, y); (x, y + h); (x + w, y + h); (x + w, y)] a in
  rotated <> [] ->
  exists annot : MSRA_TD500_annotation,
    MSRA.annotation float py_float rotate_rectangle annot_str = Ok annot /\
    Geometry.enclosing_box rotated
    = Some (x1 annot, y1 annot, x2 annot, y2 annot) /\
    Forall (fun p => (x1 annot <= fst p <= x2 annot)%R /\
                     (y1 annot <= snd p <= y2 annot)%R) rotated /\
    In (x1 annot) (map fst rotated) /\ In (y1 annot) (map snd rotated) /\
    In (x2 annot) (map fst rotated) /\ In (y2 annot) (map snd rotated) /\
    difficult annot = (t_dif =? "1")%string /\
    idx annot = i.
Proof.
  intros Hs Hi Hx Hy Hw Hh Ha rotated Hne.
  destruct rotated as [|[px py] rest] eqn:Hrot; [congruence|].
  assert (Hn := normalize_bboxes_value float py_float rotate_rectangle
                  x y w h t_angle a (px, py) rest Ha Hrot).
  assert (Hv := annotation_value float py_float rotate_rectangle
                  annot_str t_idx t_dif t_x t_y t_w t_h t_angle
                  i x y w h _ Hs Hi Hx Hy Hw Hh Hn).
  cbv iota beta in Hv. cbn [fst snd] in Hv.
  eexists. split; [exact Hv|]. cbn [x1 y1 x2 y2 base difficult idx].
  assert (Hbox : Geometry.enclosing_box ((px, py) :: rest)
                 = Some (Geometry.Rmin_list px (map fst rest),
                         Geometry.Rmin_list py (map snd rest),
                         Geometry.Rmax_list px (map fst rest),
                         Geometry.Rmax_list py (map snd rest))) by reflexivity.
  split; [exact Hbox|].
  destruct (enclosing_box_encloses _ _ _ _ _ Hbox) as (HF & H1 & H2 & H3 & H4).
  repeat split; assumption.
Qed.

Lemma annotation_is_enclosing_box_of_rotated_corners_witness :
  let rotated :=
    Geometry.rotate_rectangle [(10, 20); (10, 20 + 40); (10 + 30, 20 + 40); (10 + 30, 20)]
      (IZR 0 / IZR (10 ^ Z.of_nat 1))%R in
  exists annot : MSRA_TD500_annotation,
    annotation_of "1 0 10 20 30 40 0.0" = Ok annot /\
    Geometry.enclosing_box rotated
    = Some (x1 annot, y1 annot, x2 annot, y2 annot) /\
    Forall (fun p => (x1 annot <= fst p <= x2 annot)%R /\
                     (y1 annot <= snd p <= y2 annot)%R) rotated /\
    In (x1 annot) (map fst rotated) /\ In (y1 annot) (map snd rotated) /\
    In (x2 annot) (map fst rotated) /\ In (y2 annot) (map snd rotated) /\
    difficult annot = ("0" =? "1")%string /\
    idx annot = 1.
Proof.
  refine (annotation_is_enclosing_box_of_rotated_corners
            R py_float_decimal Geometry.rotate_rectangle
            "1 0 10 20 30 40 0.0" "1" "0" "10" "20" "30" "40" "0.0"
            1 10 20 30 40 (IZR 0 / IZR (10 ^ Z.of_nat 1))%R
            _ _ _ _ _ _ _ _);
    try reflexivity.
  simpl. discriminate.
Defined.

(* ================================================================== *)
(** * Rotation by no angle and by a quarter-turn *)
(* ================================================================== *)

Section Rotations.
Open Scope R_scope.

Lemma Rmin_IZR (a b : Z) : Rmin (IZR a) (IZR b) = IZR (Z.min a b).
Proof.
  unfold Rmin. destruct (Rle_dec (IZR a) (IZR b)) as [H|H].
  - apply le_IZR in H. rewrite Z.min_l by lia. reflexivity.
  - assert (b < a)%Z by (apply lt_IZR; lra). rewrite Z.min_r by lia. reflexivity.
Qed.

Lemma Rmax_IZR (a b : Z) : Rmax (IZR a) (IZR b) = IZR (Z.max a b).
Proof.
  unfold Rmax. destruct (Rle_dec (IZR a) (IZR b)) as [H|H].
  - apply le_IZR in H. rewrite Z.max_r by lia. reflexivity.
  - assert (b < a)%Z by (apply lt_IZR; lra). rewrite Z.max_l by lia. reflexivity.
Qed.

(** The enclosing box of four points with integer coordinates. *)
Lemma box_of_int_points (float : Type) (py_float : string -> option float)
    (rotate_rectangle : list (Z * Z) -> float -> list point)
    (x y w h : Z) (angle : string) (a : float) (p q r s : Z * Z) :
  py_float angle = Some a ->
  rotate_rectangle (MSRA.corners x y w h) a = map int_point [p; q; r; s] ->
  MSRA.normalize_bboxes float py_float rotate_rectangle x y w h angle
  = Ok (IZR (Z.min (Z.min (Z.min (fst p) (fst q)) (fst r)) (fst s)),
        IZR (Z.min (Z.min (Z.min (snd p) (snd q)) (snd r)) (snd s)),
        IZR (Z.max (Z.max (Z.max (fst p) (fst q)) (fst r)) (fst s)),
        IZR (Z.max (Z.max (Z.max (snd p) (snd q)) (snd r)) (snd s))).
Proof.
  intros Ha Hrot.
  rewrite (normalize_bboxes_value float py_float rotate_rectangle
             x y w h angle a (int_point p) (map int_point [q; r; s]) Ha Hrot).
  unfold Geometry.Rmin_list, Geometry.Rmax_list, int_point.
  cbn [map fold_left fst snd].
  rewrite !Rmin_IZR, !Rmax_IZR. reflexivity.
Qed.

Lemma rotate_point_zero (pivot p : point) :
  Geometry.rotate_point (Geometry.deg2rad 0) pivot p = p.
Proof.
  unfold Geometry.rotate_point, Geometry.deg2rad.
  destruct pivot as [px py], p as [x y].
  replace (0 * PI / 180) with 0 by lra.
  rewrite cos_0, sin_0. f_equal; ring.
Qed.

(** Zero-angle identity of the rotation. *)
Lemma rotate_rectangle_zero (points : list (Z * Z)) :
  Geometry.rotate_rectangle points 0 = map int_point points.
Proof.
  unfold Geometry.rotate_rectangle, Geometry.rotate_points.
  destruct points as [|p0 rest]; [reflexivity|].
  rewrite <- (map_id (map int_point (p0 :: rest))) at 2.
  apply map_ext. intros p. apply rotate_point_zero.
Qed.

Lemma rotate_point_quarter (px py x y : Z) :
  Geometry.rotate_point (Geometry.deg2rad 90) (int_point (px, py)) (int_point (x, y))
  = int_point ((px - (y - py))%Z, (py + (x - px))%Z).
Proof.
  unfold Geometry.rotate_point, Geometry.deg2rad, int_point. cbn [fst snd].
  replace (90 * PI / 180) with (PI / 2) by lra.
  rewrite cos_PI2, sin_PI2.
  rewrite !plus_IZR, !minus_IZR. f_equal; ring.
Qed.

(** A quarter-turn of the corner list about its first corner. *)
Lemma rotate_rectangle_quarter (x y w h : Z) :
  Geometry.rotate_rectangle (MSRA.corners x y w h) 90
  = map int_point [(x, y); (x - h, y); (x - h, y + w); (x, y + w)]%Z.
Proof.
  unfold Geometry.rotate_rectangle, Geometry.rotate_points, MSRA.corners.
  cbn [map]. rewrite !rotate_point_quarter.
  repeat (f_equal; try lia).
Qed.

(** With a zero angle the box spans [x .. x+w] and [y .. y+h], whichever
    way round. *)
Lemma zero_angle_box (py_float : string -> option R)
    (x y w h : Z) (angle : string) :
  py_float angle = Some 0 ->
  MSRA.normalize_bboxes R py_float Geometry.rotate_rectangle x y w h angle
  = Ok (IZR (Z.min x (x + w)), IZR (Z.min y (y + h)),
        IZR (Z.max x (x + w)), IZR (Z.max y (y + h))).
Proof.
  intros Ha.
  rewrite (box_of_int_points R py_float Geometry.rotate_rectangle x y w h angle 0
             (x, y) (x, y + h)%Z (x + w, y + h)%Z (x + w, y)%Z Ha
             (rotate_rectangle_zero _)).
  cbn [fst snd].
  replace (Z.min (Z.min (Z.min x x) (x + w)) (x + w)) with (Z.min x (x + w)) by lia.
  replace (Z.min (Z.min (Z.min y (y + h)) (y + h)) y) with (Z.min y (y + h)) by lia.
  replace (Z.max (Z.max (Z.max x x) (x + w)) (x + w)) with (Z.max x (x + w)) by lia.
  replace (Z.max (Z.max (Z.max y (y + h)) (y + h)) y) with (Z.max y (y + h)) by lia.
  reflexivity.
Qed.

(** With an angle of 90 the box spans [x-h .. x] and [y .. y+w],
    whichever way round. *)
Lemma quarter_turn_box (py_float : string -> option R)
    (x y w h : Z) (angle : string) :
  py_float angle = Some 90 ->
  MSRA.normalize_bboxes R py_float Geometry.rotate_rectangle x y w h angle
  = Ok (IZR (Z.min x (x - h)), IZR (Z.min y (y + w)),
        IZR (Z.max x (x - h)), IZR (Z.max y (y + w))).
Proof.
  intros Ha.
  rewrite (box_of_int_points R py_float Geometry.rotate_rectangle x y w h angle 90
             (x, y) (x - h, y)%Z (x - h, y + w)%Z (x, y + w)%Z Ha
             (rotate_rectangle_quarter x y w h)).
  cbn [fst snd].
  replace (Z.min (Z.min (Z.min x (x - h)) (x - h)) x) with (Z.min x (x - h)) by lia.
  replace (Z.min (Z.min (Z.min y y) (y + w)) (y + w)) with (Z.min y (y + w)) by lia.
  replace (Z.max (Z.max (Z.max x (x - h)) (x - h)) x) with (Z.max x (x - h)) by lia.
  replace (Z.max (Z.max (Z.max y y) (y + w)) (y + w)) with (Z.max y (y + w)) by lia.
  reflexivity.
Qed.

Lemma py_float_decimal_0_0 : py_float_decimal "0.0" = Some 0.
Proof. unfold py_float_decimal. simpl. f_equal. lra. Qed.

Lemma py_float_decimal_90_0 : py_float_decimal "90.0" = Some 90.
Proof. unfold py_float_decimal. simpl. f_equal. lra. Qed.

End Rotations.

(** C2 (amended).  For a record whose angle token reads as 0 and whose
    width and height are not negative, the constructed annotation's box is
    the unrotated box exactly, [(x1, y1, x2, y2) = (x, y, x+w, y+h)], and
    [difficult] is the test that the second token is ["1"] (so [False] for
    the token ["0"]). *)
Theorem zero_angle_identity (py_float : string -> option R)
    (annot_str t_idx t_dif t_x t_y t_w t_h t_angle : string) (i x y w h : Z) :
  split annot_str = [t_idx; t_dif; t_x; t_y; t_w; t_h; t_angle] ->
  py_int t_idx = Ok i ->
  py_int t_x = Ok x -> py_int t_y = Ok y ->
  py_int t_w = Ok w -> py_int t_h = Ok h ->
  py_float t_angle = Some 0%R ->
  0 <= w -> 0 <= h ->
  MSRA.annotation R py_float Geometry.rotate_rectangle annot_str
  = Ok (mkAnnot (mkBase (IZR x) (IZR y) (IZR (x + w)) (IZR (y + h)) None None)
                (t_dif =? "1")%string i).
Proof.
  intros Hs Hi Hx Hy Hw Hh Ha Hw0 Hh0.
  rewrite (annotation_value R py_float Geometry.rotate_rectangle
             annot_str t_idx t_dif t_x t_y t_w t_h t_angle i x y w h _
             Hs Hi Hx Hy Hw Hh (zero_angle_box py_float x y w h t_angle Ha)).
  cbv iota beta.
  rewrite (Z.min_l x (x + w)), (Z.min_l y (y + h)),
          (Z.max_r x (x + w)), (Z.max_r y (y + h)) by lia.
  reflexivity.
Qed.

Lemma zero_angle_identity_witness :
  annotation_of "1 0 10 20 30 40 0.0"
  = Ok (mkAnnot (mkBase 10 20 40 60 None None) false 1).
Proof.
  refine (zero_angle_identity py_float_decimal
            "1 0 10 20 30 40 0.0" "1" "0" "10" "20" "30" "40" "0.0"
            1 10 20 30 40 _ _ _ _ _ _ py_float_decimal_0_0 _ _);
    try reflexivity; lia.
Defined.

(** C2 as stated fails for a negative width: the record
    ["1 0 10 20 -30 40 0.0"] has [(x, y, x+w, y+h) = (10, 20, -20, 60)],
    and the enclosing box stored is [(-20, 20, 10, 60)]. *)
Lemma zero_angle_negative_width :
  annotation_of "1 0 10 20 -30 40 0.0"
  = Ok (mkAnnot (mkBase (-20) 20 10 60 None None) false 1) /\
  (forall annot : MSRA_TD500_annotation,
     annotation_of "1 0 10 20 -30 40 0.0" = Ok annot ->
     (x1 annot, y1 annot, x2 annot, y2 annot)
     <> (IZR 10, IZR 20, IZR (10 + -30), IZR (20 + 40))).
Proof.
  assert (H : annotation_of "1 0 10 20 -30 40 0.0"
              = Ok (mkAnnot (mkBase (-20) 20 10 60 None None) false 1)).
  { refine (annotation_value R py_float_decimal Geometry.rotate_rectangle
              "1 0 10 20 -30 40 0.0" "1" "0" "10" "20" "-30" "40" "0.0"
              1 10 20 (-30) 40 _ _ _ _ _ _ _
              (zero_angle_box py_float_decimal 10 20 (-30) 40 "0.0"
                 py_float_decimal_0_0));
      reflexivity. }
  split; [exact H|].
  intros annot Ha. rewrite H in Ha. injection Ha as <-.
  cbn [x1 y1 x2 y2 base]. intros E.
  assert (E1 := f_equal (fun q : R * R * R * R => fst (fst (fst q))) E).
  cbn [fst] in E1. apply eq_IZR in E1. discriminate.
Qed.

(** With an angle of 90 and a width and height that are not negative, the
    width of the box is the height of the unrotated box and its height is
    the width of the unrotated box. *)
Lemma quarter_turn_swaps (py_float : string -> option R)
    (annot_str t_idx t_dif t_x t_y t_w t_h t_angle : string) (i x y w h : Z) :
  split annot_str = [t_idx; t_dif; t_x; t_y; t_w; t_h; t_angle] ->
  py_int t_idx = Ok i ->
  py_int t_x = Ok x -> py_int t_y = Ok y ->
  py_int t_w = Ok w -> py_int t_h = Ok h ->
  py_float t_angle = Some 90%R ->
  0 <= w -> 0 <= h ->
  MSRA.annotation R py_float Geometry.rotate_rectangle annot_str
  = Ok (mkAnnot (mkBase (IZR (x - h)) (IZR y) (IZR x) (IZR (y + w)) None None)
                (t_dif =? "1")%string i).
Proof.
  intros Hs Hi Hx Hy Hw Hh Ha Hw0 Hh0.
  rewrite (annotation_value R py_float Geometry.rotate_rectangle
             annot_str t_idx t_dif t_x t_y t_w t_h t_angle i x y w h _
             Hs Hi Hx Hy Hw Hh (quarter_turn_box py_float x y w h t_angle Ha)).
  cbv iota beta.
  rewrite (Z.min_r x (x - h)), (Z.min_l y (y + w)),
          (Z.max_l x (x - h)), (Z.max_r y (y + w)) by lia.
  reflexivity.
Qed.

(** The swap does not depend on the pivot of the quarter-turn. *)
Lemma quarter_turn_swaps_about_any_pivot (pivot : point) (x y w h : Z) :
  0 <= w -> 0 <= h ->
  exists bx1 by1 bx2 by2 : R,
    Geometry.enclosing_box
      (Geometry.rotate_points (map int_point (MSRA.corners x y w h)) 90 pivot)
    = Some (bx1, by1, bx2, by2) /\
    (bx2 - bx1 = IZR h)%R /\ (by2 - by1 = IZR w)%R.
Proof.
  intros Hw Hh. apply IZR_le in Hw, Hh. destruct pivot as [px py].
  unfold Geometry.rotate_points, MSRA.corners, Geometry.rotate_point,
    Geometry.deg2rad, int_point.
  cbn [map fst snd].
  replace (90 * PI / 180)%R with (PI / 2)%R by lra.
  rewrite cos_PI2, sin_PI2.
  do 4 eexists. split; [reflexivity|].
  unfold Geometry.Rmin_list, Geometry.Rmax_list. cbn [map fold_left fst snd].
  rewrite !plus_IZR.
  unfold Rmin, Rmax; repeat destruct (Rle_dec _ _); split; lra.
Qed.

Example quarter_turn_30_by_40 :
  MSRA.annotation R py_float_decimal Geometry.rotate_rectangle "3 0 5 7 30 40 90.0"
  = Ok (mkAnnot (mkBase (-35) 7 5 37 None None) false 3).
Proof.
  refine (quarter_turn_swaps py_float_decimal
            "3 0 5 7 30 40 90.0" "3" "0" "5" "7" "30" "40" "90.0"
            3 5 7 30 40 _ _ _ _ _ _ py_float_decimal_90_0 _ _);
    try reflexivity; lia.
Qed.

(** C3.  The record ["2 1 0 0 10 10 90.0"]: the corners of the box are
    turned by a quarter-turn about the first corner, the enclosing box is
    [(-10, 0, 0, 10)], whose width is the height (10) and whose height is
    the width (10) of the unrotated box, and [difficult] is [True]. *)
Theorem quarter_turn_record :
  exists annot : MSRA_TD500_annotation,
    annotation_of "2 1 0 0 10 10 90.0" = Ok annot /\
    Geometry.rotate_rectangle (MSRA.corners 0 0 10 10) 90
    = [(0, 0); (-10, 0); (-10, 10); (0, 10)]%R /\
    (x1 annot, y1 annot, x2 annot, y2 annot) = (-10, 0, 0, 10)%R /\
    (x2 annot - x1 annot = IZR 10)%R /\
    (y2 annot - y1 annot = IZR 10)%R /\
    difficult annot = true.
Proof.
  exists (mkAnnot (mkBase (-10) 0 0 10 None None) true 2).
  split.
  - refine (quarter_turn_swaps py_float_decimal
              "2 1 0 0 10 10 90.0" "2" "1" "0" "0" "10" "10" "90.0"
              2 0 0 10 10 _ _ _ _ _ _ py_float_decimal_90_0 _ _);
      try reflexivity; lia.
  - split; [exact (rotate_rectangle_quarter 0 0 10 10)|].
    cbn [x1 y1 x2 y2 base difficult].
    repeat split; lra.
Qed.

(* ================================================================== *)
(** * Loops that stop at the first exception *)
(* ================================================================== *)

Section MapM.
Context {A B : Type}.
Variable f : A -> result B.

Lemma mapM_Err_inv (xs : list A) (e : exn) :
  mapM f xs = Err e -> exists x, In x xs /\ f x = Err e.
Proof.
  induction xs as [|x xs IH]; simpl; [discriminate|].
  destruct (f x) as [y|e'] eqn:Hx; simpl.
  - destruct (mapM f xs) as [ys|e'']; simpl; [discriminate|].
    intros H; injection H as ->.
    destruct (IH eq_refl) as [x' [Hin Hx']]. exists x'. auto.
  - intros H; injection H as ->. exists x. auto.
Qed.

Lemma mapM_Ok_inv (xs : list A) (ys : list B) :
  mapM f xs = Ok ys -> Forall2 (fun x y => f x = Ok y) xs ys.
Proof.
  revert ys. induction xs as [|x xs IH]; simpl; intros ys.
  - intros H; injection H as <-. constructor.
  - destruct (f x) as [y|e] eqn:Hx; simpl; [|discriminate].
    destruct (mapM f xs) as [ys'|e]; simpl; [|discriminate].
    intros H; injection H as <-. constructor; auto.
Qed.

Lemma mapM_all_Ok (xs : list A) :
  (forall x, In x xs -> exists y, f x = Ok y) ->
  exists ys, mapM f xs = Ok ys /\ Forall2 (fun x y => f x = Ok y) xs ys.
Proof.
  induction xs as [|x xs IH]; intros H; simpl.
  - exists []. split; [reflexivity | constructor].
  - destruct (H x (or_introl eq_refl)) as [y Hy].
    destruct IH as [ys [Hys HF]]; [intros x' Hx'; apply H; right; exact Hx'|].
    exists (y :: ys). rewrite Hy, Hys. split; [reflexivity|].
    constructor; assumption.
Qed.

(** One failing item makes the whole loop fail. *)
Lemma mapM_fails (xs : list A) :
  Exists (fun x => exists e, f x = Err e) xs ->
  exists e, mapM f xs = Err e.
Proof.
  intros HE. destruct (mapM f xs) as [ys|e] eqn:Hm; [|exists e; reflexivity].
  apply mapM_Ok_inv in Hm. apply Exists_exists in HE.
  destruct HE as [x [Hin [e He]]].
  exfalso. clear -Hm Hin He. induction Hm as [|x' y xs' ys' Hxy _ IH].
  - destruct Hin.
  - destruct Hin as [->|Hin]; [congruence | auto].
Qed.

End MapM.

(* ================================================================== *)
(** * Malformed records *)
(* ================================================================== *)

Section Malformed.
Variable float : Type.
Variable py_float : string -> option float.
Variable rotate_rectangle : list (Z * Z) -> float -> list point.
Variable fs : file_system.

Let annotation := MSRA.annotation float py_float rotate_rectangle.
Let read_annotation_file :=
  MSRA_TD500_dataset.read_annotation_file float py_float rotate_rectangle fs.
Let read_set := MSRA_TD500_dataset.read_set float py_float rotate_rectangle fs.

Lemma py_int_raises_ValueError (tok : string) (e : exn) :
  py_int tok = Err e -> exists v, e = ValueError v.
Proof.
  unfold py_int. destruct (int_literal tok); [discriminate|].
  intros H; injection H as <-. eexists; reflexivity.
Qed.

Lemma unpack7_raises_ValueError (tokens : list string) (e : exn) :
  unpack7 tokens = Err e -> exists v, e = ValueError v.
Proof.
  unfold unpack7.
  destruct tokens as [|a [|b [|c [|d [|e0 [|g [|h [|k t]]]]]]]];
    try discriminate;
    (destruct (_ <? _)%nat; intros H; injection H as <-; eexists; reflexivity).
Qed.

Lemma py_min_raises_ValueError {A : Type} (key : A -> R) (l : list A) (e : exn) :
  py_min key l = Err e -> exists v, e = ValueError v.
Proof.
  destruct l; simpl; [|discriminate].
  intros H; injection H as <-. eexists; reflexivity.
Qed.

Lemma py_max_raises_ValueError {A : Type} (key : A -> R) (l : list A) (e : exn) :
  py_max key l = Err e -> exists v, e = ValueError v.
Proof.
  destruct l; simpl; [|discriminate].
  intros H; injection H as <-. eexists; reflexivity.
Qed.

Lemma normalize_bboxes_raises_ValueError (x y w h : Z) (angle : string) (e : exn) :
  MSRA.normalize_bboxes float py_float rotate_rectangle x y w h angle = Err e ->
  exists v, e = ValueError v.
Proof.
  unfold MSRA.normalize_bboxes.
  destruct (py_float angle) as [a|]; cbn [bind];
    [|intros H; injection H as <-; eexists; reflexivity].
  destruct (py_min fst _) eqn:H1; cbn [bind];
    [|intros H; injection H as <-; eapply py_min_raises_ValueError; eauto].
  destruct (py_max fst _) eqn:H2; cbn [bind];
    [|intros H; injection H as <-; eapply py_max_raises_ValueError; eauto].
  destruct (py_min snd _) eqn:H3; cbn [bind];
    [|intros H; injection H as <-; eapply py_min_raises_ValueError; eauto].
  destruct (py_max snd _) eqn:H4; cbn [bind];
    [discriminate|intros H; injection H as <-; eapply py_max_raises_ValueError; eauto].
Qed.

(** The constructor raises nothing but [ValueError]. *)
Lemma annotation_raises_ValueError (annot_str : string) (e : exn) :
  annotation annot_str = Err e -> exists v, e = ValueError v.
Proof.
  unfold annotation, MSRA.annotation.
  destruct (unpack7 (split annot_str)) as [[[[[[[ti td] tx] ty] tw] th] ta]|e0] eqn:Hu;
    cbn [bind];
    [|intros H; injection H as <-; eapply unpack7_raises_ValueError; eauto].
  destruct (py_int ti) eqn:Hi; cbn [bind];
    [|intros H; injection H as <-; eapply py_int_raises_ValueError; eauto].
  destruct (py_int tx) eqn:Hx; cbn [bind];
    [|intros H; injection H as <-; eapply py_int_raises_ValueError; eauto].
  destruct (py_int ty) eqn:Hy; cbn [bind];
    [|intros H; injection H as <-; eapply py_int_raises_ValueError; eauto].
  destruct (py_int tw) eqn:Hw; cbn [bind];
    [|intros H; injection H as <-; eapply py_int_raises_ValueError; eauto].
  destruct (py_int th) eqn:Hh; cbn [bind];
    [|intros H; injection H as <-; eapply py_int_raises_ValueError; eauto].
  destruct (MSRA.normalize_bboxes _ _ _ _ _ _ _ _) as [[[[bx1 by1] bx2] by2]|e0] eqn:Hn;
    cbn [bind];
    [discriminate
    |intros H; injection H as <-; eapply normalize_bboxes_raises_ValueError; eauto].
Qed.

(** On a malformed record the constructor raises. *)
Lemma malformed_raises (annot_str : string) :
  malformed py_float annot_str = true ->
  exists e, annotation annot_str = Err e.
Proof.
  unfold malformed, annotation, MSRA.annotation, MSRA.normalize_bboxes.
  destruct (split annot_str) as [|a [|b [|c [|d [|e0 [|g [|h [|k t]]]]]]]];
    try (intros _; eexists; reflexivity).
  cbn [unpack7 bind].
  destruct (py_int a); cbn [bind is_ok andb negb]; [|intros _; eexists; reflexivity].
  destruct (py_int c); cbn [bind is_ok andb negb]; [|intros _; eexists; reflexivity].
  destruct (py_int d); cbn [bind is_ok andb negb]; [|intros _; eexists; reflexivity].
  destruct (py_int e0); cbn [bind is_ok andb negb]; [|intros _; eexists; reflexivity].
  destruct (py_int g); cbn [bind is_ok andb negb]; [|intros _; eexists; reflexivity].
  destruct (py_float h); cbn [bind is_some andb negb]; [discriminate|].
  intros _; eexists; reflexivity.
Qed.

Lemma read_annotation_file_raises (annot_pth : string) (lines : list string) :
  readlines fs annot_pth = Some lines ->
  Exists (fun l => malformed py_float l = true) lines ->
  exists v l,
    In l lines /\ annotation l = Err (ValueError v) /\
    read_annotation_file annot_pth = Err (ValueError v).
Proof.
  intros Hread Hbad.
  unfold read_annotation_file, MSRA_TD500_dataset.read_annotation_file.
  rewrite Hread. cbn [bind].
  destruct (mapM_fails (MSRA.annotation float py_float rotate_rectangle) lines)
    as [e He].
  { eapply Exists_impl; [|exact Hbad]. intros l Hl. apply malformed_raises, Hl. }
  destruct (mapM_Err_inv _ _ _ He) as [l [Hin Hl]].
  destruct (annotation_raises_ValueError l e Hl) as [v ->].
  exists v, l. auto.
Qed.

Lemma read_set_fails (set_dir annot_pth : string) (lines : list string) :
  readlines fs annot_pth = Some lines ->
  Exists (fun l => malformed py_float l = true) lines ->
  In annot_pth (paired_annotation_files fs set_dir) ->
  exists e, read_set set_dir = Err e.
Proof.
  intros Hread Hbad Hin.
  unfold read_set, MSRA_TD500_dataset.read_set.
  apply mapM_fails. apply Exists_exists.
  unfold paired_annotation_files in Hin. apply in_map_iff in Hin.
  destruct Hin as [[annot_file img] [Heq Hin]]. simpl in Heq. subst annot_file.
  exists (annot_pth, img). split; [exact Hin|].
  fold read_annotation_file.
  destruct (read_annotation_file_raises annot_pth lines Hread Hbad)
    as (v & l & _ & _ & Hv).
  rewrite Hv. eexists; reflexivity.
Qed.

End Malformed.

(* ================================================================== *)
(** * The example records and folders *)
(* ================================================================== *)

Lemma annotation_of_record_1 : annotation_of record_1 = Ok annot_1.
Proof.
  refine (annotation_value R py_float_decimal Geometry.rotate_rectangle
            record_1 "1" "0" "10" "20" "30" "40" "0.0"
            1 10 20 30 40 _ _ _ _ _ _ _
            (zero_angle_box py_float_decimal 10 20 30 40 "0.0"
               py_float_decimal_0_0));
    reflexivity.
Qed.






(* ================================================================== *)
(** * Pairing of annotation files and images *)
(* ================================================================== *)

Section Pairing.

Lemma insert_sorted_length (p : string) (l : list string) :
  List.length (insert_sorted p l) = S (List.length l).
Proof.
  induction l as [|q l IH]; simpl; [reflexivity|].
  destruct (String.leb p q); simpl; [reflexivity | now rewrite IH].
Qed.

Lemma sort_length (l : list string) : List.length (sort l) = List.length l.
Proof.
  induction l as [|p l IH]; simpl; [reflexivity|].
  unfold sort in *. simpl. now rewrite insert_sorted_length, IH.
Qed.

Lemma map_snd_combine {A B : Type} (l : list A) (l' : list B) :
  map snd (combine l l') = firstn (List.length l) l'.
Proof.
  revert l'. induction l as [|a l IH]; intros [|b l']; simpl; try reflexivity.
  now rewrite IH.
Qed.

Variable float : Type.
Variable py_float : string -> option float.
Variable rotate_rectangle : list (Z * Z) -> float -> list point.
Variable fs : file_system.

Let read_annotation_file :=
  MSRA_TD500_dataset.read_annotation_file float py_float rotate_rectangle fs.
Let read_set := MSRA_TD500_dataset.read_set float py_float rotate_rectangle fs.

(** What the loop of [read_set] builds from the zipped pairs. *)
Lemma read_pairs_value (pairs : list (string * string))
    (samples : list MSRA_TD500_sample) :
  Forall2 (fun (pair : string * string) s =>
             (let '(annot_file, img) := pair in
              annots <- read_annotation_file annot_file ;;
              Ok (mkSample img annots)) = Ok s) pairs samples ->
  map img_pth samples = map snd pairs /\
  Forall2 (fun annot_file s =>
             read_annotation_file annot_file = Ok (annotations s))
          (map fst pairs) samples.
Proof.
  induction 1 as [|[annot_file img] s pairs samples Hs _ [IH1 IH2]]; simpl.
  - split; [reflexivity | constructor].
  - destruct (read_annotation_file annot_file) as [annots|e] eqn:Hr;
      cbn [bind] in Hs; [|discriminate].
    injection Hs as <-. simpl. split; [now rewrite IH1|].
    constructor; assumption.
Qed.

Lemma read_set_zips (set_dir : string) :
  (forall p, In p (paired_annotation_files fs set_dir) ->
             exists annots, read_annotation_file p = Ok annots) ->
  exists samples,
    read_set set_dir = Ok samples /\
    List.length samples
    = Nat.min (List.length (glob fs set_dir ".gt"))
              (List.length (glob fs set_dir ".JPG")) /\
    map img_pth samples
    = firstn (List.length (glob fs set_dir ".gt")) (sort (glob fs set_dir ".JPG")) /\
    Forall2 (fun annot_file s =>
               read_annotation_file annot_file = Ok (annotations s))
            (paired_annotation_files fs set_dir) samples.
Proof.
  intros Hall. unfold read_set, MSRA_TD500_dataset.read_set.
  fold read_annotation_file.
  set (pairs := combine (sort (glob fs set_dir ".gt")) (sort (glob fs set_dir ".JPG"))).
  destruct (mapM_all_Ok
              (fun '(annot_file, img_pth) =>
                 annots <- read_annotation_file annot_file ;;
                 Ok (mkSample img_pth annots)) pairs) as [samples [Hm HF]].
  { intros [annot_file img] Hin.
    destruct (Hall annot_file) as [annots Ha].
    - unfold paired_annotation_files. fold pairs.
      apply in_map_iff. exists (annot_file, img). auto.
    - rewrite Ha. eexists; reflexivity. }
  exists samples. split; [exact Hm|].
  pose proof (Forall2_length HF) as Hlen.
  destruct (read_pairs_value pairs samples HF) as [Himg Hann].
  split; [|split].
  - rewrite <- Hlen. unfold pairs. now rewrite length_combine, !sort_length.
  - rewrite Himg. unfold pairs. now rewrite map_snd_combine, sort_length.
  - exact Hann.
Qed.

End Pairing.

Lemma annotation_of_record_2 :
  annotation_of record_2 = Ok (mkAnnot (mkBase (-10) 0 0 10 None None) true 2).
Proof.
  refine (annotation_value R py_float_decimal Geometry.rotate_rectangle
            record_2 "2" "1" "0" "0" "10" "10" "90.0"
            2 0 0 10 10 _ _ _ _ _ _ _
            (quarter_turn_box py_float_decimal 0 0 10 10 "90.0"
               py_float_decimal_90_0));
    reflexivity.
Qed.

(** A file whose only line is the first example record. *)
Lemma read_file_of_record_1 (fs : file_system) (annot_pth : string) :
  readlines fs annot_pth = Some [record_1] ->
  MSRA_TD500_dataset.read_annotation_file R py_float_decimal
    Geometry.rotate_rectangle fs annot_pth = Ok [annot_1].
Proof.
  intros Hread. unfold MSRA_TD500_dataset.read_annotation_file.
  rewrite Hread. cbn [bind mapM].
  change (MSRA.annotation R py_float_decimal Geometry.rotate_rectangle record_1)
    with (annotation_of record_1).
  rewrite annotation_of_record_1. reflexivity.
Qed.

Lemma read_unpaired_set :
  MSRA_TD500_dataset.read_set R py_float_decimal
    Geometry.rotate_rectangle fs_unpaired "MSRA_TD500/train"
  = Ok [mkSample "MSRA_TD500/train/IMG_0002.JPG" [annot_1]].
Proof.
  unfold MSRA_TD500_dataset.read_set.
  change (combine (sort (glob fs_unpaired "MSRA_TD500/train" ".gt"))
                  (sort (glob fs_unpaired "MSRA_TD500/train" ".JPG")))
    with [("MSRA_TD500/train/IMG_0001.gt", "MSRA_TD500/train/IMG_0002.JPG")].
  cbn [mapM].
  rewrite (read_file_of_record_1 fs_unpaired "MSRA_TD500/train/IMG_0001.gt" eq_refl).
  reflexivity.
Qed.

(** C7 (amended).  [read_set] pairs the sorted annotation files with the
    sorted images by position and stops at the shorter list: when the
    annotation files it opens are read without error it returns as many
    samples as the shorter list has files, the images being the first of
    the sorted images and the annotations those of the first of the
    sorted annotation files, and the files left over are left out without
    any exception: no [MissingResourceError] is raised. *)
Theorem read_set_pairs_by_position
    (float : Type) (py_float : string -> option float)
    (rotate_rectangle : list (Z * Z) -> float -> list point)
    (fs : file_system) (set_dir : string) :
  (forall p, In p (paired_annotation_files fs set_dir) ->
     exists annots,
       MSRA_TD500_dataset.read_annotation_file float py_float rotate_rectangle
         fs p = Ok annots) ->
  (exists samples,
     MSRA_TD500_dataset.read_set float py_float rotate_rectangle fs set_dir
     = Ok samples /\
     List.length samples
     = Nat.min (List.length (glob fs set_dir ".gt"))
               (List.length (glob fs set_dir ".JPG")) /\
     map img_pth samples
     = firstn (List.length (glob fs set_dir ".gt"))
              (sort (glob fs set_dir ".JPG")) /\
     Forall2 (fun annot_file s =>
                MSRA_TD500_dataset.read_annotation_file float py_float
                  rotate_rectangle fs annot_file = Ok (annotations s))
             (paired_annotation_files fs set_dir) samples) /\
  (forall p,
     MSRA_TD500_dataset.read_set float py_float rotate_rectangle fs set_dir
     <> Err (MissingResourceError p)).
Proof.
  intros Hall.
  pose proof (read_set_zips float py_float rotate_rectangle fs set_dir Hall)
    as Hzip.
  split; [exact Hzip|].
  intros p H. destruct Hzip as (samples & Hok & _).
  rewrite Hok in H. discriminate.
Qed.

Lemma read_set_pairs_by_position_witness :
  (exists samples,
     MSRA_TD500_dataset.read_set R py_float_decimal Geometry.rotate_rectangle
       fs_unpaired "MSRA_TD500/train" = Ok samples /\
     List.length samples
     = Nat.min (List.length (glob fs_unpaired "MSRA_TD500/train" ".gt"))
               (List.length (glob fs_unpaired "MSRA_TD500/train" ".JPG")) /\
     map img_pth samples
     = firstn (List.length (glob fs_unpaired "MSRA_TD500/train" ".gt"))
              (sort (glob fs_unpaired "MSRA_TD500/train" ".JPG")) /\
     Forall2 (fun annot_file s =>
                MSRA_TD500_dataset.read_annotation_file R py_float_decimal
                  Geometry.rotate_rectangle fs_unpaired annot_file
                = Ok (annotations s))
             (paired_annotation_files fs_unpaired "MSRA_TD500/train") samples) /\
  (forall p,
     MSRA_TD500_dataset.read_set R py_float_decimal Geometry.rotate_rectangle
       fs_unpaired "MSRA_TD500/train" <> Err (MissingResourceError p)).
Proof.
  refine (read_set_pairs_by_position R py_float_decimal
            Geometry.rotate_rectangle fs_unpaired "MSRA_TD500/train" _).
  intros p Hin.
  change (paired_annotation_files fs_unpaired "MSRA_TD500/train")
    with ["MSRA_TD500/train/IMG_0001.gt"] in Hin.
  destruct Hin as [<-|[]].
  exists [annot_1]. apply read_file_of_record_1. reflexivity.
Defined.

(** C7 as stated fails: in [fs_unpaired] the image of [IMG_0001.gt] is
    absent.  Reading the subset succeeds with one sample, in which the
    annotations of [IMG_0001.gt] go with the image [IMG_0002.JPG], and
    [IMG_0002.gt] is left out. *)
Lemma unpaired_files_are_skipped :
  MSRA_TD500_dataset.read_set R py_float_decimal
    Geometry.rotate_rectangle fs_unpaired "MSRA_TD500/train"
  = Ok [mkSample "MSRA_TD500/train/IMG_0002.JPG" [annot_1]] /\
  ~ (exists p,
       MSRA_TD500_dataset.read_set R py_float_decimal
         Geometry.rotate_rectangle fs_unpaired "MSRA_TD500/train"
       = Err (MissingResourceError p)).
Proof.
  split; [exact read_unpaired_set|].
  intros [p H]. rewrite read_unpaired_set in H. discriminate.
Qed.

(* ================================================================== *)
(** * Dicts *)
(* ================================================================== *)

Section DictFacts.
Context {V : Type}.
Implicit Types (d : Dict.t V) (k : string) (v : V).

Lemma find_set_same d k v : Dict.find (Dict.set d k v) k = Some v.
Proof.
  induction d as [|[k' v'] d IH]; simpl.
  - now rewrite String.eqb_refl.
  - destruct (k' =? k)%string eqn:E; simpl.
    + now rewrite String.eqb_refl.
    + now rewrite E.
Qed.

Lemma find_set_other d k k' v :
  k <> k' -> Dict.find (Dict.set d k v) k' = Dict.find d k'.
Proof.
  intros Hne. induction d as [|[k0 v0] d IH]; simpl.
  - apply String.eqb_neq in Hne. now rewrite Hne.
  - destruct (k0 =? k)%string eqn:E; simpl.
    + apply String.eqb_eq in E. subst k0.
      apply String.eqb_neq in Hne. now rewrite Hne.
    + destruct (k0 =? k')%string; [reflexivity | exact IH].
Qed.

Lemma find_Some_keys d k v : Dict.find d k = Some v -> In k (Dict.keys d).
Proof.
  induction d as [|[k' v'] d IH]; simpl; [discriminate|].
  destruct (k' =? k)%string eqn:E.
  - apply String.eqb_eq in E. auto.
  - auto.
Qed.

Lemma keys_find_Some d k : In k (Dict.keys d) -> exists v, Dict.find d k = Some v.
Proof.
  induction d as [|[k' v'] d IH]; simpl; [tauto|].
  intros [->|Hin].
  - rewrite String.eqb_refl. eauto.
  - destruct (k' =? k)%string; eauto.
Qed.

Lemma get_missing d k : Dict.mem d k = false -> Dict.get d k = Err (KeyError k).
Proof.
  unfold Dict.mem, Dict.get. destruct (Dict.find d k); [discriminate | reflexivity].
Qed.

End DictFacts.

(* ================================================================== *)
(** * Opening a dataset and the navigation state *)
(* ================================================================== *)

Section Comprehension.
Variable dataset : Dataset.t.

(** Every subset kept by the comprehension is a non-empty subset of the
    dataset with its cursor at 0, and every non-empty subset named is
    kept. *)
Lemma comprehension_value (names : list string)
    (acc : Dict.t (Subset.t MSRA_TD500_sample)) :
  (forall n, In n names -> exists l, Dataset.getitem dataset n = Ok l) ->
  exists acc',
    ViewerDataset.comprehension dataset names acc = Ok acc' /\
    (forall k s, Dict.find acc' k = Some s ->
       Dict.find acc k = Some s \/
       exists l, Dataset.getitem dataset k = Ok l /\ l <> [] /\
                 s = Subset.init l 0) /\
    (forall k, In k (Dict.keys acc) -> In k (Dict.keys acc')) /\
    (forall k l, In k names -> Dataset.getitem dataset k = Ok l -> l <> [] ->
       In k (Dict.keys acc')).
Proof.
  revert acc. induction names as [|n names IH]; intros acc Hget.
  - exists acc. simpl. split; [reflexivity|]. split; [auto|]. split; [auto|].
    intros k l [].
  - destruct (Hget n (or_introl eq_refl)) as [l Hl].
    assert (Hrest : forall n', In n' names ->
                      exists l', Dataset.getitem dataset n' = Ok l')
      by (intros n' Hn'; apply Hget; right; exact Hn').
    cbn [ViewerDataset.comprehension]. rewrite Hl. cbn [bind].
    destruct (len l =? 0) eqn:Hlen; cbn [negb].
    + destruct (IH acc Hrest) as (acc' & Hc & Hsub & Hkeep & Hall).
      exists acc'. split; [exact Hc|]. split; [exact Hsub|]. split; [exact Hkeep|].
      intros k l' [<-|Hin] Hk Hne.
      * exfalso. rewrite Hl in Hk. injection Hk as <-.
        apply len_pos_iff in Hne. apply Z.eqb_eq in Hlen. lia.
      * eapply Hall; eauto.
    + assert (Hne : l <> []).
      { intros ->. unfold len in Hlen. simpl in Hlen. discriminate. }
      destruct (IH (Dict.set acc n (Subset.init l 0)) Hrest)
        as (acc' & Hc & Hsub & Hkeep & Hall).
      exists acc'. split; [exact Hc|]. split; [|split].
      * intros k s Hk. destruct (Hsub k s Hk) as [Hold|Hnew]; [|right; exact Hnew].
        destruct (String.eqb_spec n k) as [<-|Hnk].
        -- rewrite find_set_same in Hold. injection Hold as <-.
           right. exists l. auto.
        -- rewrite find_set_other in Hold by exact Hnk. left; exact Hold.
      * intros k Hk. apply Hkeep.
        destruct (keys_find_Some acc k Hk) as [s Hs].
        destruct (String.eqb_spec n k) as [<-|Hnk].
        -- eapply find_Some_keys. apply find_set_same.
        -- eapply find_Some_keys. rewrite find_set_other by exact Hnk. exact Hs.
      * intros k l' [<-|Hin] Hk Hne'.
        -- apply Hkeep. eapply find_Some_keys. apply find_set_same.
        -- eapply Hall; eauto.
Qed.

(** With nothing but empty subsets the comprehension keeps nothing. *)
Lemma comprehension_all_empty (names : list string)
    (acc : Dict.t (Subset.t MSRA_TD500_sample)) :
  (forall n, In n names -> Dataset.getitem dataset n = Ok []) ->
  ViewerDataset.comprehension dataset names acc = Ok acc.
Proof.
  induction names as [|n names IH]; intros Hall; [reflexivity|].
  cbn [ViewerDataset.comprehension].
  rewrite (Hall n (or_introl eq_refl)). cbn [bind]. simpl.
  apply IH. intros n' Hn'. apply Hall. right; exact Hn'.
Qed.

Lemma named_subsets_exist (n : string) :
  In n (Dataset.get_subsets_names dataset) ->
  exists l, Dataset.getitem dataset n = Ok l.
Proof.
  unfold Dataset.get_subsets_names, Dataset.getitem, Dict.get. intros Hin.
  destruct (keys_find_Some _ _ Hin) as [l Hl]. rewrite Hl. eauto.
Qed.

End Comprehension.

Lemma getitem_head {A : Type} (x : A) (l : list A) : getitem (x :: l) 0 = Ok x.
Proof.
  unfold getitem, len. cbn [Z.ltb Z.compare List.length].
  rewrite Nat2Z.inj_succ.
  destruct (Z.succ (Z.of_nat (List.length l)) <=? 0) eqn:E;
    [apply Z.leb_le in E; lia | reflexivity].
Qed.

(** C8 (amended).  Over a dataset in which every subset is empty the
    constructor of [ViewerDataset] raises [IndexError] (the first of no
    keys); when some subset is not empty it returns, and the current
    subset name is one of the subsets kept, a non-empty subset of the
    dataset, with its cursor on the first sample. *)
Theorem viewer_needs_a_nonempty_subset (dataset : Dataset.t) :
  ((forall name samples,
      Dataset.getitem dataset name = Ok samples -> samples = []) ->
   ViewerDataset.init dataset = Err IndexError) /\
  ((exists name samples,
      Dataset.getitem dataset name = Ok samples /\ samples <> []) ->
   exists v samples x,
     ViewerDataset.init dataset = Ok v /\
     In (ViewerDataset.get_current_subset_name v) (ViewerDataset.available_subsets v) /\
     Dataset.getitem dataset (ViewerDataset.get_current_subset_name v) = Ok samples /\
     samples <> [] /\
     ViewerDataset.get_current_subset v = Ok (Subset.init samples 0) /\
     ViewerDataset.get_current_index v = Ok 0 /\
     ViewerDataset.get_current_sample v = Ok x /\
     nth_error samples 0 = Some x).
Proof.
  split.
  - intros Hempty. unfold ViewerDataset.init.
    rewrite comprehension_all_empty; [reflexivity|].
    intros n Hn. destruct (named_subsets_exist dataset n Hn) as [l Hl].
    rewrite Hl. f_equal. eapply Hempty; eauto.
  - intros (name & samples & Hget & Hne).
    assert (Hin : In name (Dataset.get_subsets_names dataset)).
    { unfold Dataset.getitem, Dict.get in Hget.
      destruct (Dict.find (Dataset._subsets dataset) name) eqn:Hf; [|discriminate].
      eapply find_Some_keys; eauto. }
    destruct (comprehension_value dataset (Dataset.get_subsets_names dataset) []
                (named_subsets_exist dataset))
      as (acc' & Hc & Hsub & _ & Hall).
    pose proof (Hall name samples Hin Hget Hne) as Hkept.
    destruct acc' as [|[k0 s0] rest]; [destruct Hkept|].
    destruct (Hsub k0 s0) as [Hold|(l & Hl & Hlne & ->)];
      [simpl; now rewrite String.eqb_refl | discriminate |].
    destruct l as [|x l]; [congruence|].
    exists (ViewerDataset.mk ((k0, Subset.init (x :: l) 0) :: rest) k0), (x :: l), x.
    unfold ViewerDataset.init. rewrite Hc. cbn [bind Dict.keys map fst].
    rewrite getitem_head. cbn [bind].
    unfold ViewerDataset.get_current_subset_name, ViewerDataset.available_subsets,
      ViewerDataset.get_current_subset, ViewerDataset.get_current_index,
      ViewerDataset.get_current_sample, ViewerDataset.get_current_subset, Dict.get.
    cbn [ViewerDataset._current_subset ViewerDataset._subsets Dict.find Dict.keys
         map fst].
    rewrite String.eqb_refl. cbn [bind].
    unfold Subset.get_current_sample, Subset.get_current_index, Subset.init.
    cbn [Subset._subset Subset._current_idx]. rewrite getitem_head.
    repeat split; try reflexivity; try assumption.
    left; reflexivity.
Qed.

Lemma viewer_needs_a_nonempty_subset_witness :
  ViewerDataset.init dataset_all_empty = Err IndexError /\
  exists v samples x,
    ViewerDataset.init dataset_train_test = Ok v /\
    In (ViewerDataset.get_current_subset_name v) (ViewerDataset.available_subsets v) /\
    Dataset.getitem dataset_train_test (ViewerDataset.get_current_subset_name v)
    = Ok samples /\
    samples <> [] /\
    ViewerDataset.get_current_subset v = Ok (Subset.init samples 0) /\
    ViewerDataset.get_current_index v = Ok 0 /\
    ViewerDataset.get_current_sample v = Ok x /\
    nth_error samples 0 = Some x.
Proof.
  split.
  - apply (proj1 (viewer_needs_a_nonempty_subset dataset_all_empty)).
    intros name samples. unfold Dataset.getitem, Dict.get, dataset_all_empty.
    cbn [Dataset._subsets Dict.find].
    destruct ("train" =? name)%string; [intros H; injection H as <-; reflexivity|].
    destruct ("test" =? name)%string; [intros H; injection H as <-; reflexivity|].
    discriminate.
  - apply (proj2 (viewer_needs_a_nonempty_subset dataset_train_test)).
    exists "test", [sample_of "MSRA_TD500/test/IMG_0003.JPG"].
    split; [reflexivity | discriminate].
Defined.

(** C8 as stated fails: over [dataset_all_empty] the constructor raises
    [IndexError], not [EmptyDatasetError]. *)
Lemma all_empty_raises_IndexError :
  ViewerDataset.init dataset_all_empty = Err IndexError /\
  ViewerDataset.init dataset_all_empty <> Err EmptyDatasetError.
Proof.
  assert (H : ViewerDataset.init dataset_all_empty = Err IndexError) by reflexivity.
  split; [exact H|]. rewrite H. discriminate.
Qed.

(** C9 (amended).  [set_current_subset] returns for every state and
    every name, and stores the name as the current subset name unchecked;
    for a name that is not among the subsets kept, it is the next use of
    the current subset that raises, with a [KeyError]. *)
Theorem set_current_subset_stores_any_name
    (v : ViewerDataset.t) (name : string) :
  exists v',
    ViewerDataset.set_current_subset v name = Ok v' /\
    ViewerDataset.get_current_subset_name v' = name /\
    ViewerDataset.available_subsets v' = ViewerDataset.available_subsets v /\
    (Dict.mem (ViewerDataset._subsets v) name = false ->
     ViewerDataset.get_current_subset v' = Err (KeyError name) /\
     ViewerDataset.get_current_sample v' = Err (KeyError name) /\
     ViewerDataset.get_current_index v' = Err (KeyError name) /\
     ViewerDataset.next_sample v' = Err (KeyError name) /\
     ViewerDataset.previous_sample v' = Err (KeyError name)).
Proof.
  exists (ViewerDataset.mk (ViewerDataset._subsets v) name).
  split; [reflexivity|]. split; [reflexivity|]. split; [reflexivity|].
  intros Hmem.
  unfold ViewerDataset.get_current_sample, ViewerDataset.get_current_index,
    ViewerDataset.get_current_subset, ViewerDataset.next_sample,
    ViewerDataset.previous_sample.
  cbn [ViewerDataset._subsets ViewerDataset._current_subset].
  rewrite (get_missing _ _ Hmem). cbn [bind].
  repeat split; reflexivity.
Qed.

Lemma set_current_subset_stores_any_name_witness :
  (exists v',
     ViewerDataset.set_current_subset viewer_train_test "test" = Ok v' /\
     ViewerDataset.get_current_subset_name v' = "test" /\
     ViewerDataset.available_subsets v'
     = ViewerDataset.available_subsets viewer_train_test) /\
  (exists v',
     ViewerDataset.set_current_subset viewer_train_test "validation" = Ok v' /\
     ViewerDataset.get_current_subset_name v' = "validation" /\
     ViewerDataset.available_subsets v'
     = ViewerDataset.available_subsets viewer_train_test /\
     ViewerDataset.get_current_subset v' = Err (KeyError "validation") /\
     ViewerDataset.get_current_sample v' = Err (KeyError "validation") /\
     ViewerDataset.get_current_index v' = Err (KeyError "validation") /\
     ViewerDataset.next_sample v' = Err (KeyError "validation") /\
     ViewerDataset.previous_sample v' = Err (KeyError "validation")).
Proof.
  split.
  - destruct (set_current_subset_stores_any_name viewer_train_test "test")
      as (v' & Hset & Hname & Hkeys & _).
    exists v'. split; [exact Hset|]. split; [exact Hname | exact Hkeys].
  - destruct (set_current_subset_stores_any_name viewer_train_test "validation")
      as (v' & Hset & Hname & Hkeys & Hlater).
    exists v'. split; [exact Hset|]. split; [exact Hname|]. split; [exact Hkeys|].
    apply Hlater. reflexivity.
Defined.

(** C9 as stated fails: on the state that [ViewerDataset] builds over
    [dataset_train_test], whose subsets are [train] and [test],
    [set_current_subset("validation")] returns. *)
Lemma set_current_subset_validation_returns :
  ViewerDataset.init dataset_train_test = Ok viewer_train_test /\
  ViewerDataset.available_subsets viewer_train_test = ["train"; "test"] /\
  ViewerDataset.set_current_subset viewer_train_test "validation"
  = Ok (ViewerDataset.mk (ViewerDataset._subsets viewer_train_test) "validation") /\
  ViewerDataset.set_current_subset viewer_train_test "validation"
  <> Err (InvalidSubsetError "validation").
Proof.
  split; [reflexivity|]. split; [reflexivity|]. split; [reflexivity|].
  discriminate.
Qed.

Section AbsentFolder.
Variable float : Type.
Variable py_float : string -> option float.
Variable rotate_rectangle : list (Z * Z) -> float -> list point.
Variable fs : file_system.

(** A folder that does not exist reads as a subset without samples. *)
Lemma read_set_absent_folder (set_dir : string) :
  listdir fs set_dir = None ->
  MSRA_TD500_dataset.read_set float py_float rotate_rectangle fs set_dir = Ok [].
Proof.
  intros Habsent. unfold MSRA_TD500_dataset.read_set, glob.
  rewrite Habsent. reflexivity.
Qed.

Lemma init_value (dset_folder : string) (train test : list MSRA_TD500_sample) :
  MSRA_TD500_dataset.read_set float py_float rotate_rectangle fs
    (joinpath dset_folder "train") = Ok train ->
  MSRA_TD500_dataset.read_set float py_float rotate_rectangle fs
    (joinpath dset_folder "test") = Ok test ->
  MSRA_TD500_dataset.init float py_float rotate_rectangle fs dset_folder
  = Ok (Dataset.mk dset_folder [("train", train); ("test", test)]).
Proof.
  intros Htrain Htest. unfold MSRA_TD500_dataset.init.
  cbn [Dataset.base_init Dataset.dset_folder].
  rewrite Htrain. cbn [bind]. rewrite Htest. reflexivity.
Qed.

End AbsentFolder.

Lemma viewer_over_train_only (dset_folder : string)
    (s : MSRA_TD500_sample) (train : list MSRA_TD500_sample) :
  ViewerDataset.init (Dataset.mk dset_folder [("train", s :: train); ("test", [])])
  = Ok (ViewerDataset.mk [("train", Subset.init (s :: train) 0)] "train").
Proof.
  unfold ViewerDataset.init, Dataset.get_subsets_names.
  cbn [Dataset._subsets Dict.keys map fst ViewerDataset.comprehension].
  unfold Dataset.getitem, Dict.get.
  cbn [Dataset._subsets Dict.find String.eqb Ascii.eqb Bool.eqb bind].
  replace (len (s :: train) =? 0) with false
    by (symmetry; apply Z.eqb_neq; unfold len; simpl; lia).
  reflexivity.
Qed.

(** C5 (amended).  Opening a dataset root whose [test] folder is absent
    and whose [train] folder is read without error succeeds.  The
    dataset's own mapping lists both [train] and [test], the latter with
    no sample; it is the navigation state that leaves the empty subset
    out: when [train] has a sample, its available subsets are exactly
    [train]. *)
Theorem absent_folder_is_an_empty_subset
    (float : Type) (py_float : string -> option float)
    (rotate_rectangle : list (Z * Z) -> float -> list point)
    (fs : file_system) (dset_folder : string) (train : list MSRA_TD500_sample) :
  listdir fs (joinpath dset_folder "test") = None ->
  MSRA_TD500_dataset.read_set float py_float rotate_rectangle fs
    (joinpath dset_folder "train") = Ok train ->
  exists dataset,
    MSRA_TD500_dataset.init float py_float rotate_rectangle fs dset_folder
    = Ok dataset /\
    Dataset.get_subsets_names dataset = ["train"; "test"] /\
    Dataset.getitem dataset "train" = Ok train /\
    Dataset.getitem dataset "test" = Ok [] /\
    (train <> [] ->
     exists v,
       ViewerDataset.init dataset = Ok v /\
       ViewerDataset.available_subsets v = ["train"] /\
       ViewerDataset.get_current_subset_name v = "train").
Proof.
  intros Habsent Htrain.
  exists (Dataset.mk dset_folder [("train", train); ("test", [])]).
  split.
  - apply init_value; [exact Htrain|].
    apply read_set_absent_folder. exact Habsent.
  - split; [reflexivity|]. split; [reflexivity|]. split; [reflexivity|].
    intros Hne. destruct train as [|s train]; [congruence|].
    eexists. split; [apply viewer_over_train_only|]. split; reflexivity.
Qed.

Lemma read_train_only_set :
  MSRA_TD500_dataset.read_set R py_float_decimal
    Geometry.rotate_rectangle fs_train_only "MSRA_TD500/train"
  = Ok [mkSample "MSRA_TD500/train/IMG_0001.JPG" [annot_1]].
Proof.
  unfold MSRA_TD500_dataset.read_set.
  change (combine (sort (glob fs_train_only "MSRA_TD500/train" ".gt"))
                  (sort (glob fs_train_only "MSRA_TD500/train" ".JPG")))
    with [("MSRA_TD500/train/IMG_0001.gt", "MSRA_TD500/train/IMG_0001.JPG")].
  cbn [mapM].
  rewrite (read_file_of_record_1 fs_train_only "MSRA_TD500/train/IMG_0001.gt" eq_refl).
  reflexivity.
Qed.

Lemma absent_folder_is_an_empty_subset_witness :
  exists dataset,
    open_dataset fs_train_only "MSRA_TD500" = Ok dataset /\
    Dataset.get_subsets_names dataset = ["train"; "test"] /\
    Dataset.getitem dataset "train"
    = Ok [mkSample "MSRA_TD500/train/IMG_0001.JPG" [annot_1]] /\
    Dataset.getitem dataset "test" = Ok [] /\
    ([mkSample "MSRA_TD500/train/IMG_0001.JPG" [annot_1]] <> [] ->
     exists v,
       ViewerDataset.init dataset = Ok v /\
       ViewerDataset.available_subsets v = ["train"] /\
       ViewerDataset.get_current_subset_name v = "train").
Proof.
  refine (absent_folder_is_an_empty_subset R py_float_decimal
            Geometry.rotate_rectangle fs_train_only "MSRA_TD500"
            [mkSample "MSRA_TD500/train/IMG_0001.JPG" [annot_1]] _ _).
  - reflexivity.
  - exact read_train_only_set.
Defined.

(** C5 as stated fails: the root of [fs_train_only] holds a [train]
    folder only.  Opening it succeeds, and the subset names of the dataset
    are [train] and [test]: the absent folder is an entry of the mapping,
    with an empty list. *)
Lemma absent_folder_is_listed :
  exists dataset,
    open_dataset fs_train_only "MSRA_TD500" = Ok dataset /\
    Dataset.get_subsets_names dataset = ["train"; "test"] /\
    Dataset.get_subsets_names dataset <> ["train"] /\
    Dict.mem (Dataset._subsets dataset) "test" = true /\
    Dataset.getitem dataset "test" = Ok [].
Proof.
  exists (Dataset.mk "MSRA_TD500"
            [("train", [mkSample "MSRA_TD500/train/IMG_0001.JPG" [annot_1]]);
             ("test", [])]).
  split.
  - unfold open_dataset. apply init_value; [exact read_train_only_set|].
    apply read_set_absent_folder. reflexivity.
  - split; [reflexivity|]. split; [discriminate|]. split; reflexivity.
Qed.

(* ================================================================== *)
(** * More on the cursor *)
(* ================================================================== *)

Lemma getitem_out_of_range {A : Type} (l : list A) (i : Z) :
  i < - len l \/ len l <= i -> getitem l i = Err IndexError.
Proof.
  intros Hi. unfold getitem. cbv zeta.
  destruct (i <? 0) eqn:Hneg.
  - apply Z.ltb_lt in Hneg.
    assert (H : (i + len l <? 0) = true) by (apply Z.ltb_lt; unfold len in *; lia).
    rewrite H. reflexivity.
  - apply Z.ltb_ge in Hneg.
    assert (H : (len l <=? i) = true) by (apply Z.leb_le; unfold len in *; lia).
    rewrite H, orb_true_r. reflexivity.
Qed.

Lemma getitem_nil {A : Type} (i : Z) : getitem (@nil A) i = Err IndexError.
Proof.
  apply getitem_out_of_range. unfold len. simpl. lia.
Qed.

Lemma getitem_negative {A : Type} (l : list A) (i : Z) :
  - len l <= i < 0 ->
  exists x, nth_error l (Z.to_nat (len l + i)) = Some x /\ getitem l i = Ok x.
Proof.
  intros Hi.
  destruct (getitem_in_range l (len l + i)) as [x [Hnth Hget]]; [lia|].
  exists x. split; [exact Hnth|].
  unfold getitem in *. cbv zeta in *.
  assert (H1 : (i <? 0) = true) by (apply Z.ltb_lt; lia).
  assert (H2 : (len l + i <? 0) = false) by (apply Z.ltb_ge; lia).
  rewrite H1. rewrite H2 in Hget. rewrite (Z.add_comm i). exact Hget.
Qed.

(** X1.  On a non-empty list and from an index in range, [previous_sample]
    undoes [next_sample] and [next_sample] undoes [previous_sample]: the
    second call brings the cursor back and returns the sample it was
    on. *)
Theorem next_and_previous_are_inverse {A : Type} (l : list A) (i : Z) :
  l <> [] -> 0 <= i < len l ->
  exists x s1 x1 s2 x2,
    nth_error l (Z.to_nat i) = Some x /\
    Subset.next_sample (Subset.mk l i) = Ok (s1, x1) /\
    Subset.previous_sample s1 = Ok (Subset.mk l i, x) /\
    Subset.previous_sample (Subset.mk l i) = Ok (s2, x2) /\
    Subset.next_sample s2 = Ok (Subset.mk l i, x).
Proof.
  intros Hl Hi. pose proof (proj1 (len_pos_iff l) Hl) as Hpos.
  destruct (getitem_in_range l i Hi) as [x [Hx _]].
  destruct (next_sample_step l i Hl) as [x1 [_ Hn]].
  destruct (previous_sample_step l i Hl Hi) as [x2 [_ Hp]].
  assert (Hr1 : 0 <= (i + 1) mod len l < len l) by (apply Z.mod_pos_bound; lia).
  destruct (previous_sample_step l _ Hl Hr1) as [y1 [Hy1 Hp1]].
  destruct (next_sample_step l ((i - 1) mod len l) Hl) as [y2 [Hy2 Hn2]].
  assert (E1 : ((i + 1) mod len l - 1) mod len l = i).
  { rewrite Zminus_mod_idemp_l. replace (i + 1 - 1) with i by lia.
    apply Z.mod_small; lia. }
  assert (E2 : ((i - 1) mod len l + 1) mod len l = i).
  { rewrite Zplus_mod_idemp_l. replace (i - 1 + 1) with i by lia.
    apply Z.mod_small; lia. }
  rewrite E1 in Hy1, Hp1. rewrite E2 in Hy2, Hn2.
  assert (y1 = x) by congruence. assert (y2 = x) by congruence. subst y1 y2.
  exists x, (Subset.mk l ((i + 1) mod len l)), x1,
         (Subset.mk l ((i - 1) mod len l)), x2.
  repeat split; assumption.
Qed.

Lemma next_and_previous_are_inverse_witness :
  exists x s1 x1 s2 x2,
    nth_error ["a"; "b"; "c"] (Z.to_nat 2) = Some x /\
    Subset.next_sample (Subset.mk ["a"; "b"; "c"] 2) = Ok (s1, x1) /\
    Subset.previous_sample s1 = Ok (Subset.mk ["a"; "b"; "c"] 2, x) /\
    Subset.previous_sample (Subset.mk ["a"; "b"; "c"] 2) = Ok (s2, x2) /\
    Subset.next_sample s2 = Ok (Subset.mk ["a"; "b"; "c"] 2, x).
Proof.
  apply (next_and_previous_are_inverse ["a"; "b"; "c"] 2).
  - discriminate.
  - unfold len; simpl; lia.
Defined.

(** X2.  On a non-empty list [previous_sample] returns exactly when the
    stored index is at most the length: an index below 1 sends the cursor
    to the last sample, an index from 1 to the length moves it one back,
    and an index beyond the length raises [IndexError]. *)
Theorem previous_sample_beyond_the_end {A : Type} (l : list A) (i : Z) :
  l <> [] ->
  (i <= 0 ->
   exists x, nth_error l (Z.to_nat (len l - 1)) = Some x /\
             Subset.previous_sample (Subset.set_index (Subset.init l 0) i)
             = Ok (Subset.mk l (len l - 1), x)) /\
  (1 <= i <= len l ->
   exists x, nth_error l (Z.to_nat (i - 1)) = Some x /\
             Subset.previous_sample (Subset.set_index (Subset.init l 0) i)
             = Ok (Subset.mk l (i - 1), x)) /\
  (len l < i ->
   Subset.previous_sample (Subset.set_index (Subset.init l 0) i)
   = Err IndexError).
Proof.
  intros Hl. pose proof (proj1 (len_pos_iff l) Hl) as Hpos.
  unfold Subset.previous_sample, Subset.set_index, Subset.init.
  cbn [Subset._subset Subset._current_idx].
  split; [|split]; intros Hi.
  - assert (E : (0 <=? i - 1) = false) by (apply Z.leb_gt; lia). rewrite E.
    destruct (getitem_in_range l (len l - 1)) as [x [Hx Hg]]; [lia|].
    exists x. rewrite Hg. auto.
  - assert (E : (0 <=? i - 1) = true) by (apply Z.leb_le; lia). rewrite E.
    destruct (getitem_in_range l (i - 1)) as [x [Hx Hg]]; [lia|].
    exists x. rewrite Hg. auto.
  - assert (E : (0 <=? i - 1) = true) by (apply Z.leb_le; lia). rewrite E.
    rewrite getitem_out_of_range by lia. reflexivity.
Qed.

Lemma previous_sample_beyond_the_end_witness :
  (exists x, nth_error ["a"; "b"; "c"] (Z.to_nat (len ["a"; "b"; "c"] - 1)) = Some x /\
             Subset.previous_sample (Subset.set_index (Subset.init ["a"; "b"; "c"] 0) (-5))
             = Ok (Subset.mk ["a"; "b"; "c"] (len ["a"; "b"; "c"] - 1), x)) /\
  (exists x, nth_error ["a"; "b"; "c"] (Z.to_nat (3 - 1)) = Some x /\
             Subset.previous_sample (Subset.set_index (Subset.init ["a"; "b"; "c"] 0) 3)
             = Ok (Subset.mk ["a"; "b"; "c"] (3 - 1), x)) /\
  Subset.previous_sample (Subset.set_index (Subset.init ["a"; "b"; "c"] 0) 4)
  = Err IndexError.
Proof.
  assert (Hne : ["a"; "b"; "c"] <> @nil string) by discriminate.
  split; [|split].
  - apply (proj1 (previous_sample_beyond_the_end ["a"; "b"; "c"] (-5) Hne)). lia.
  - apply (proj1 (proj2 (previous_sample_beyond_the_end ["a"; "b"; "c"] 3 Hne))).
    unfold len; simpl; lia.
  - apply (proj2 (proj2 (previous_sample_beyond_the_end ["a"; "b"; "c"] 4 Hne))).
    unfold len; simpl; lia.
Defined.

(** X3.  Over an empty list, whatever the index, [next_sample] raises
    [ZeroDivisionError] (the modulo by the length) while [previous_sample]
    and [get_current_sample] raise [IndexError]. *)
Theorem empty_subset_raises {A : Type} (i : Z) :
  Subset.next_sample (Subset.mk (@nil A) i) = Err ZeroDivisionError /\
  Subset.previous_sample (Subset.mk (@nil A) i) = Err IndexError /\
  Subset.get_current_sample (Subset.mk (@nil A) i) = Err IndexError.
Proof.
  unfold Subset.next_sample, Subset.previous_sample, Subset.get_current_sample.
  cbn [Subset._subset Subset._current_idx].
  rewrite !getitem_nil. repeat split; reflexivity.
Qed.

(** X4.  [set_index] stores any integer, and [get_current_index] gives it
    back unchanged.  [get_current_sample] then follows Python's indexing:
    an index from [0] to [len - 1] gives that sample, an index from
    [-len] to [-1] gives the sample counted from the end, and any other
    index raises [IndexError]. *)
Theorem set_index_is_unchecked {A : Type} (s : Subset.t A) (i : Z) :
  let s' := Subset.set_index s i in
  let l := Subset._subset s in
  Subset.get_current_index s' = i /\
  Subset._subset s' = l /\
  (0 <= i < len l ->
   exists x, nth_error l (Z.to_nat i) = Some x /\
             Subset.get_current_sample s' = Ok x) /\
  (- len l <= i < 0 ->
   exists x, nth_error l (Z.to_nat (len l + i)) = Some x /\
             Subset.get_current_sample s' = Ok x) /\
  (i < - len l \/ len l <= i ->
   Subset.get_current_sample s' = Err IndexError).
Proof.
  destruct s as [l j]. cbv zeta.
  unfold Subset.set_index, Subset.get_current_index, Subset.get_current_sample.
  cbn [Subset._subset Subset._current_idx].
  split; [reflexivity|]. split; [reflexivity|].
  split; [apply getitem_in_range|].
  split; [apply getitem_negative | apply getitem_out_of_range].
Qed.

Lemma set_index_is_unchecked_witness :
  let s' := Subset.set_index (Subset.init ["a"; "b"; "c"] 0) (-1) in
  let l := ["a"; "b"; "c"] in
  (exists x, nth_error l (Z.to_nat (len l + -1)) = Some x /\
             Subset.get_current_sample s' = Ok x) /\
  Subset.get_current_sample (Subset.set_index (Subset.init ["a"; "b"; "c"] 0) 3)
  = Err IndexError /\
  (exists x, nth_error l (Z.to_nat 1) = Some x /\
             Subset.get_current_sample (Subset.set_index (Subset.init l 0) 1) = Ok x).
Proof.
  cbv zeta. split; [|split].
  - apply (proj1 (proj2 (proj2 (proj2
      (set_index_is_unchecked (Subset.init ["a"; "b"; "c"] 0) (-1)))))).
    unfold len; simpl; lia.
  - apply (proj2 (proj2 (proj2 (proj2
      (set_index_is_unchecked (Subset.init ["a"; "b"; "c"] 0) 3))))).
    right. unfold len; simpl; lia.
  - apply (proj1 (proj2 (proj2
      (set_index_is_unchecked (Subset.init ["a"; "b"; "c"] 0) 1)))).
    unfold len; simpl; lia.
Defined.

(* ================================================================== *)
(** * More on dicts *)
(* ================================================================== *)

Section DictUpdates.
Context {V : Type}.
Implicit Types (d : Dict.t V) (k : string) (v : V).

Lemma keys_set_present d k v :
  In k (Dict.keys d) -> Dict.keys (Dict.set d k v) = Dict.keys d.
Proof.
  induction d as [|[k' v'] d IH]; simpl; [tauto|].
  intros Hin. destruct (k' =? k)%string eqn:E; simpl.
  - apply String.eqb_eq in E. now subst.
  - f_equal. apply IH. destruct Hin as [->|Hin]; [|exact Hin].
    rewrite String.eqb_refl in E. discriminate.
Qed.

Lemma set_fresh d k v :
  ~ In k (Dict.keys d) -> Dict.set d k v = (d ++ [(k, v)])%list.
Proof.
  induction d as [|[k' v'] d IH]; simpl; [reflexivity|].
  intros Hnin. destruct (k' =? k)%string eqn:E.
  - apply String.eqb_eq in E. tauto.
  - f_equal. apply IH. tauto.
Qed.

Lemma find_app_fresh d d' k :
  ~ In k (Dict.keys d) -> Dict.find (d ++ d')%list k = Dict.find d' k.
Proof.
  induction d as [|[k' v'] d IH]; simpl; [reflexivity|].
  intros Hnin. destruct (k' =? k)%string eqn:E.
  - apply String.eqb_eq in E. tauto.
  - apply IH. tauto.
Qed.

Lemma forallb_set (P : V -> bool) d k v :
  forallb (fun kv => P (snd kv)) d = true -> P v = true ->
  forallb (fun kv => P (snd kv)) (Dict.set d k v) = true.
Proof.
  intros Hd Hv. induction d as [|[k' v'] d IH]; simpl in *.
  - now rewrite Hv.
  - apply andb_true_iff in Hd. destruct Hd as [H1 H2].
    destruct (k' =? k)%string; simpl.
    + now rewrite Hv, H2.
    + now rewrite H1, IH.
Qed.

Lemma forallb_find (P : V -> bool) d k v :
  forallb (fun kv => P (snd kv)) d = true -> Dict.find d k = Some v ->
  P v = true.
Proof.
  induction d as [|[k' v'] d IH]; simpl; [discriminate|].
  intros Hd Hf. apply andb_true_iff in Hd. destruct Hd as [H1 H2].
  destruct (k' =? k)%string; [injection Hf as <-; exact H1 | auto].
Qed.

Lemma mem_keys d k : Dict.mem d k = true <-> In k (Dict.keys d).
Proof.
  unfold Dict.mem. split.
  - destruct (Dict.find d k) eqn:E; [|discriminate].
    intros _. eapply find_Some_keys; eauto.
  - intros Hin. destruct (keys_find_Some d k Hin) as [v Hv]. now rewrite Hv.
Qed.

End DictUpdates.

(* ================================================================== *)
(** * Navigation never raises on a constructed state *)
(* ================================================================== *)

Lemma cursor_in_range_spec {A : Type} (s : Subset.t A) :
  cursor_in_range s = true <->
  0 <= Subset._current_idx s < len (Subset._subset s).
Proof.
  unfold cursor_in_range. rewrite andb_true_iff, Z.leb_le, Z.ltb_lt. tauto.
Qed.

Lemma cursor_in_range_nonempty {A : Type} (s : Subset.t A) :
  cursor_in_range s = true -> Subset._subset s <> [].
Proof.
  intros H. apply cursor_in_range_spec in H. apply len_pos_iff. lia.
Qed.

Lemma next_sample_keeps_range {A : Type} (s : Subset.t A) :
  cursor_in_range s = true ->
  exists s' x, Subset.next_sample s = Ok (s', x) /\ cursor_in_range s' = true.
Proof.
  intros H. pose proof (cursor_in_range_nonempty s H) as Hne.
  destruct s as [l i]. simpl in Hne.
  destruct (next_sample_step l i Hne) as [x [_ Hs]].
  eexists _, x. split; [exact Hs|].
  apply cursor_in_range_spec. simpl.
  apply Z.mod_pos_bound. now apply len_pos_iff.
Qed.

Lemma previous_sample_keeps_range {A : Type} (s : Subset.t A) :
  cursor_in_range s = true ->
  exists s' x, Subset.previous_sample s = Ok (s', x) /\ cursor_in_range s' = true.
Proof.
  intros H. pose proof (cursor_in_range_nonempty s H) as Hne.
  apply cursor_in_range_spec in H.
  destruct s as [l i]. simpl in Hne, H.
  destruct (previous_sample_step l i Hne H) as [x [_ Hs]].
  eexists _, x. split; [exact Hs|].
  apply cursor_in_range_spec. simpl.
  apply Z.mod_pos_bound. now apply len_pos_iff.
Qed.

Lemma offered_select (names : list string) (name : string) :
  offered names (Select name) = true <-> In name names.
Proof.
  simpl. rewrite existsb_exists. split.
  - intros [n [Hin E]]. apply String.eqb_eq in E. now subst.
  - intros Hin. exists name. split; [exact Hin | apply String.eqb_refl].
Qed.

(** One call keeps a navigable state navigable. *)
Lemma perform_keeps_navigable (v : ViewerDataset.t) (a : action) :
  navigable v = true ->
  offered (ViewerDataset.available_subsets v) a = true ->
  exists v',
    perform v a = Ok v' /\ navigable v' = true /\
    ViewerDataset.available_subsets v' = ViewerDataset.available_subsets v.
Proof.
  intros Hnav Hoff. unfold navigable in Hnav.
  apply andb_true_iff in Hnav. destruct Hnav as [Hmem Hall].
  destruct v as [subsets current]. cbn [ViewerDataset._subsets
    ViewerDataset._current_subset ViewerDataset.available_subsets] in *.
  pose proof (proj1 (mem_keys subsets current) Hmem) as Hkey.
  destruct (keys_find_Some subsets current Hkey) as [s Hs].
  pose proof (forallb_find cursor_in_range subsets current s Hall Hs) as Hok.
  destruct a as [| |name].
  - destruct (next_sample_keeps_range s Hok) as (s' & x & Hstep & Hok').
    eexists. unfold perform, ViewerDataset.next_sample, Dict.get.
    cbn [ViewerDataset._subsets ViewerDataset._current_subset].
    rewrite Hs. cbn [bind]. rewrite Hstep. cbn [bind].
    split; [reflexivity|]. unfold navigable, ViewerDataset.available_subsets.
    cbn [ViewerDataset._subsets ViewerDataset._current_subset].
    split; [|apply keys_set_present; exact Hkey].
    apply andb_true_iff. split.
    + unfold Dict.mem. now rewrite find_set_same.
    + apply forallb_set; assumption.
  - destruct (previous_sample_keeps_range s Hok) as (s' & x & Hstep & Hok').
    eexists. unfold perform, ViewerDataset.previous_sample, Dict.get.
    cbn [ViewerDataset._subsets ViewerDataset._current_subset].
    rewrite Hs. cbn [bind]. rewrite Hstep. cbn [bind].
    split; [reflexivity|]. unfold navigable, ViewerDataset.available_subsets.
    cbn [ViewerDataset._subsets ViewerDataset._current_subset].
    split; [|apply keys_set_present; exact Hkey].
    apply andb_true_iff. split.
    + unfold Dict.mem. now rewrite find_set_same.
    + apply forallb_set; assumption.
  - apply offered_select in Hoff.
    eexists. unfold perform, ViewerDataset.set_current_subset.
    cbn [ViewerDataset._subsets]. split; [reflexivity|].
    unfold navigable, ViewerDataset.available_subsets.
    cbn [ViewerDataset._subsets ViewerDataset._current_subset].
    split; [|reflexivity].
    apply andb_true_iff. split; [apply mem_keys; exact Hoff | exact Hall].
Qed.

Lemma perform_all_keeps_navigable (actions : list action) (v : ViewerDataset.t) :
  navigable v = true ->
  forallb (offered (ViewerDataset.available_subsets v)) actions = true ->
  exists v',
    perform_all v actions = Ok v' /\ navigable v' = true /\
    ViewerDataset.available_subsets v' = ViewerDataset.available_subsets v.
Proof.
  revert v. induction actions as [|a actions IH]; intros v Hnav Hoff.
  - exists v. auto.
  - simpl in Hoff. apply andb_true_iff in Hoff. destruct Hoff as [Ha Hrest].
    destruct (perform_keeps_navigable v a Hnav Ha) as (v1 & Hp & Hnav1 & Hk1).
    destruct (IH v1 Hnav1) as (v' & Hp' & Hnav' & Hk'); [now rewrite Hk1|].
    exists v'. cbn [perform_all]. rewrite Hp. cbn [bind].
    split; [exact Hp'|]. split; [exact Hnav' | congruence].
Qed.

Lemma comprehension_cursors (dataset : Dataset.t) (names : list string)
    (acc acc' : Dict.t (Subset.t MSRA_TD500_sample)) :
  forallb (fun kv => cursor_in_range (snd kv)) acc = true ->
  ViewerDataset.comprehension dataset names acc = Ok acc' ->
  forallb (fun kv => cursor_in_range (snd kv)) acc' = true.
Proof.
  revert acc. induction names as [|n names IH]; intros acc Hacc; simpl.
  - intros H; injection H as <-. exact Hacc.
  - destruct (Dataset.getitem dataset n) as [l|e]; cbn [bind]; [|discriminate].
    destruct (len l =? 0) eqn:Hlen; cbn [negb].
    + apply IH. exact Hacc.
    + apply IH. apply forallb_set; [exact Hacc|].
      apply cursor_in_range_spec. simpl. apply Z.eqb_neq in Hlen.
      unfold len in *. lia.
Qed.

Lemma init_is_navigable (dataset : Dataset.t) (v : ViewerDataset.t) :
  ViewerDataset.init dataset = Ok v -> navigable v = true.
Proof.
  unfold ViewerDataset.init.
  destruct (ViewerDataset.comprehension dataset _ []) as [subsets|e] eqn:Hc;
    cbn [bind]; [|discriminate].
  destruct subsets as [|[k0 s0] rest]; [discriminate|].
  cbn [Dict.keys map fst]. rewrite getitem_head. cbn [bind].
  intros H; injection H as <-.
  unfold navigable. cbn [ViewerDataset._subsets ViewerDataset._current_subset].
  apply andb_true_iff. split.
  - unfold Dict.mem. simpl. now rewrite String.eqb_refl.
  - eapply comprehension_cursors; [|exact Hc]. reflexivity.
Qed.

(** X5.  On a [ViewerDataset] that its constructor has returned, any
    sequence of [next_sample], [previous_sample] and
    [set_current_subset(name)] with [name] taken from
    [available_subsets()] runs without an exception; afterwards the
    available subsets are the same, the current index is a valid index of
    the current subset and [get_current_sample] returns the sample at
    it. *)
Theorem navigation_never_raises
    (dataset : Dataset.t) (v : ViewerDataset.t) (actions : list action) :
  ViewerDataset.init dataset = Ok v ->
  forallb (offered (ViewerDataset.available_subsets v)) actions = true ->
  exists v' s x,
    perform_all v actions = Ok v' /\
    ViewerDataset.available_subsets v' = ViewerDataset.available_subsets v /\
    ViewerDataset.get_current_subset v' = Ok s /\
    0 <= Subset._current_idx s < len (Subset._subset s) /\
    ViewerDataset.get_current_index v' = Ok (Subset._current_idx s) /\
    ViewerDataset.get_current_sample v' = Ok x /\
    nth_error (Subset._subset s) (Z.to_nat (Subset._current_idx s)) = Some x.
Proof.
  intros Hinit Hoff.
  destruct (perform_all_keeps_navigable actions v (init_is_navigable _ _ Hinit) Hoff)
    as (v' & Hrun & Hnav & Hkeys).
  unfold navigable in Hnav. apply andb_true_iff in Hnav. destruct Hnav as [Hmem Hall].
  apply mem_keys in Hmem. destruct (keys_find_Some _ _ Hmem) as [s Hs].
  pose proof (forallb_find cursor_in_range _ _ s Hall Hs) as Hok.
  apply cursor_in_range_spec in Hok.
  destruct (getitem_in_range _ _ Hok) as [x [Hnth Hget]].
  exists v', s, x. split; [exact Hrun|]. split; [exact Hkeys|].
  unfold ViewerDataset.get_current_index, ViewerDataset.get_current_sample,
    ViewerDataset.get_current_subset, Dict.get, Subset.get_current_sample,
    Subset.get_current_index.
  rewrite Hs. cbn [bind]. rewrite Hget. auto.
Qed.

Lemma navigation_never_raises_witness :
  exists v' s x,
    perform_all viewer_train_test
      [Next; Next; Select "test"; Previous; Select "train"; Previous] = Ok v' /\
    ViewerDataset.available_subsets v'
    = ViewerDataset.available_subsets viewer_train_test /\
    ViewerDataset.get_current_subset v' = Ok s /\
    0 <= Subset._current_idx s < len (Subset._subset s) /\
    ViewerDataset.get_current_index v' = Ok (Subset._current_idx s) /\
    ViewerDataset.get_current_sample v' = Ok x /\
    nth_error (Subset._subset s) (Z.to_nat (Subset._current_idx s)) = Some x.
Proof.
  apply (navigation_never_raises dataset_train_test viewer_train_test);
    reflexivity.
Defined.

(* ================================================================== *)
(** * The cursors of the other subsets *)
(* ================================================================== *)

Lemma move_frame (v v' : ViewerDataset.t) (a : action) :
  is_move a = true -> perform v a = Ok v' ->
  ViewerDataset._current_subset v' = ViewerDataset._current_subset v /\
  ViewerDataset.available_subsets v' = ViewerDataset.available_subsets v /\
  (forall name, name <> ViewerDataset._current_subset v ->
                viewer_getitem v' name = viewer_getitem v name).
Proof.
  destruct v as [subsets current].
  destruct a as [| |name]; [| |discriminate]; intros _;
    unfold perform, ViewerDataset.next_sample, ViewerDataset.previous_sample,
      Dict.get;
    cbn [ViewerDataset._subsets ViewerDataset._current_subset];
    (destruct (Dict.find subsets current) as [s|] eqn:Hs;
       cbn [bind]; [|discriminate]).
  - destruct (Subset.next_sample s) as [[s' x]|e]; cbn [bind]; [|discriminate].
    intros H; injection H as <-.
    unfold ViewerDataset.available_subsets, viewer_getitem, Dict.get.
    cbn [ViewerDataset._subsets ViewerDataset._current_subset].
    split; [reflexivity|]. split.
    + apply keys_set_present. eapply find_Some_keys; eauto.
    + intros name Hne. rewrite find_set_other by congruence. reflexivity.
  - destruct (Subset.previous_sample s) as [[s' x]|e]; cbn [bind]; [|discriminate].
    intros H; injection H as <-.
    unfold ViewerDataset.available_subsets, viewer_getitem, Dict.get.
    cbn [ViewerDataset._subsets ViewerDataset._current_subset].
    split; [reflexivity|]. split.
    + apply keys_set_present. eapply find_Some_keys; eauto.
    + intros name Hne. rewrite find_set_other by congruence. reflexivity.
Qed.

(** X6.  A [next_sample] or [previous_sample] of the [ViewerDataset] that
    returns moves the cursor of the current subset only: the current
    subset name and the available subsets are unchanged, and every other
    subset is found with its cursor as it was. *)
Theorem moving_touches_the_current_subset_only
    (v v1 v2 : ViewerDataset.t) (x1 x2 : MSRA_TD500_sample) (name : string) :
  name <> ViewerDataset.get_current_subset_name v ->
  (ViewerDataset.next_sample v = Ok (v1, x1) ->
   ViewerDataset.get_current_subset_name v1 = ViewerDataset.get_current_subset_name v /\
   ViewerDataset.available_subsets v1 = ViewerDataset.available_subsets v /\
   viewer_getitem v1 name = viewer_getitem v name) /\
  (ViewerDataset.previous_sample v = Ok (v2, x2) ->
   ViewerDataset.get_current_subset_name v2 = ViewerDataset.get_current_subset_name v /\
   ViewerDataset.available_subsets v2 = ViewerDataset.available_subsets v /\
   viewer_getitem v2 name = viewer_getitem v name).
Proof.
  intros Hne. unfold ViewerDataset.get_current_subset_name in *. split; intros H.
  - destruct (move_frame v v1 Next eq_refl) as (Hc & Hk & Hf).
    { unfold perform. rewrite H. reflexivity. }
    auto.
  - destruct (move_frame v v2 Previous eq_refl) as (Hc & Hk & Hf).
    { unfold perform. rewrite H. reflexivity. }
    auto.
Qed.

Lemma moving_touches_the_current_subset_only_witness :
  exists v1 x1 v2 x2,
    ViewerDataset.next_sample viewer_train_test = Ok (v1, x1) /\
    ViewerDataset.previous_sample viewer_train_test = Ok (v2, x2) /\
    viewer_getitem v1 "test" = viewer_getitem viewer_train_test "test" /\
    viewer_getitem v2 "test" = viewer_getitem viewer_train_test "test".
Proof.
  destruct (ViewerDataset.next_sample viewer_train_test) as [[v1 x1]|e] eqn:H1;
    [|discriminate H1].
  destruct (ViewerDataset.previous_sample viewer_train_test) as [[v2 x2]|e] eqn:H2;
    [|discriminate H2].
  exists v1, x1, v2, x2. split; [reflexivity|]. split; [reflexivity|].
  assert (Hne : "test" <> ViewerDataset.get_current_subset_name viewer_train_test)
    by discriminate.
  split.
  - exact (proj2 (proj2 (proj1
      (moving_touches_the_current_subset_only viewer_train_test v1 v2 x1 x2
         "test" Hne) H1))).
  - exact (proj2 (proj2 (proj2
      (moving_touches_the_current_subset_only viewer_train_test v1 v2 x1 x2
         "test" Hne) H2))).
Defined.

Lemma moves_frame (moves : list action) (v v' : ViewerDataset.t) :
  forallb is_move moves = true -> perform_all v moves = Ok v' ->
  ViewerDataset._current_subset v' = ViewerDataset._current_subset v /\
  (forall name, name <> ViewerDataset._current_subset v ->
                viewer_getitem v' name = viewer_getitem v name).
Proof.
  revert v. induction moves as [|a moves IH]; intros v Hm; simpl.
  - intros H; injection H as <-. auto.
  - simpl in Hm. apply andb_true_iff in Hm. destruct Hm as [Ha Hrest].
    destruct (perform v a) as [v1|e] eqn:Hp; cbn [bind]; [|discriminate].
    intros Hrun. destruct (move_frame v v1 a Ha Hp) as (Hc & _ & Hf).
    destruct (IH v1 Hrest Hrun) as (Hc' & Hf').
    split; [congruence|].
    intros name Hne. rewrite Hf' by congruence. apply Hf. exact Hne.
Qed.

(** X7.  Each subset remembers its cursor: after
    [set_current_subset(b)], any number of [next_sample] and
    [previous_sample] calls there, and [set_current_subset(a)] with
    [a != b], the current subset is [a] with the cursor it had before. *)
Theorem cursor_is_remembered_across_subsets
    (v v' : ViewerDataset.t) (a b : string) (moves : list action)
    (s : Subset.t MSRA_TD500_sample) :
  a <> b ->
  forallb is_move moves = true ->
  viewer_getitem v a = Ok s ->
  perform_all v (Select b :: moves ++ [Select a]) = Ok v' ->
  ViewerDataset.get_current_subset_name v' = a /\
  ViewerDataset.get_current_subset v' = Ok s /\
  ViewerDataset.get_current_index v' = Ok (Subset._current_idx s) /\
  ViewerDataset.get_current_sample v' = Subset.get_current_sample s.
Proof.
  intros Hab Hm Hs. cbn [perform_all perform]. unfold ViewerDataset.set_current_subset.
  cbn [bind]. set (vb := ViewerDataset.mk (ViewerDataset._subsets v) b).
  intros Hrun.
  assert (Hsplit : forall l1 l2 u w,
            perform_all u (l1 ++ l2) = Ok w ->
            exists u1, perform_all u l1 = Ok u1 /\ perform_all u1 l2 = Ok w).
  { induction l1 as [|c l1 IH]; intros l2 u w; simpl.
    - intros H. exists u. auto.
    - destruct (perform u c) as [u1|e]; cbn [bind]; [|discriminate].
      apply IH. }
  destruct (Hsplit _ _ _ _ Hrun) as (v1 & Hmoves & Hlast).
  destruct (moves_frame moves vb v1 Hm Hmoves) as (_ & Hf).
  cbn [perform_all perform] in Hlast. unfold ViewerDataset.set_current_subset in Hlast.
  cbn [bind] in Hlast. injection Hlast as <-.
  assert (Hg : viewer_getitem v1 a = Ok s).
  { rewrite Hf by (subst vb; simpl; exact Hab). exact Hs. }
  unfold viewer_getitem in Hg.
  unfold ViewerDataset.get_current_subset_name, ViewerDataset.get_current_index,
    ViewerDataset.get_current_sample, ViewerDataset.get_current_subset.
  cbn [ViewerDataset._subsets ViewerDataset._current_subset].
  rewrite Hg. cbn [bind]. auto.
Qed.

Lemma cursor_is_remembered_across_subsets_witness :
  exists v' s,
    perform_all viewer_train_test
      (Select "test" :: [Next; Previous; Previous] ++ [Select "train"]) = Ok v' /\
    viewer_getitem viewer_train_test "train" = Ok s /\
    ViewerDataset.get_current_subset_name v' = "train" /\
    ViewerDataset.get_current_subset v' = Ok s /\
    ViewerDataset.get_current_index v' = Ok (Subset._current_idx s) /\
    ViewerDataset.get_current_sample v' = Subset.get_current_sample s.
Proof.
  eexists. eexists. split; [reflexivity|]. split; [reflexivity|].
  refine (cursor_is_remembered_across_subsets viewer_train_test _
            "train" "test" [Next; Previous; Previous] _ _ eq_refl eq_refl eq_refl).
  discriminate.
Defined.

(* ================================================================== *)
(** * Which subsets the navigation state keeps *)
(* ================================================================== *)

Lemma comprehension_exact (folder : string)
    (post pre : Dict.t (list MSRA_TD500_sample))
    (acc : Dict.t (Subset.t MSRA_TD500_sample)) :
  NoDup (Dict.keys (pre ++ post)%list) ->
  (forall k, In k (Dict.keys acc) -> In k (Dict.keys pre)) ->
  ViewerDataset.comprehension (Dataset.mk folder (pre ++ post)%list)
    (Dict.keys post) acc
  = Ok (acc ++ map cursor_at_start (filter nonempty_subset post))%list.
Proof.
  revert pre acc. induction post as [|[k l] post IH]; intros pre acc Hnd Hacc.
  - simpl. now rewrite app_nil_r.
  - assert (Hk : ~ In k (Dict.keys pre)).
    { unfold Dict.keys in *. rewrite map_app in Hnd. simpl in Hnd.
      apply NoDup_remove_2 in Hnd. intros Hin. apply Hnd.
      apply in_or_app. left. exact Hin. }
    change (Dict.keys ((k, l) :: post)) with (k :: Dict.keys post).
    cbn [ViewerDataset.comprehension].
    unfold Dataset.getitem, Dict.get. cbn [Dataset._subsets].
    rewrite (find_app_fresh pre ((k, l) :: post) k Hk).
    cbn [Dict.find]. rewrite String.eqb_refl. cbn [bind].
    assert (Hpre : (pre ++ (k, l) :: post = (pre ++ [(k, l)]) ++ post)%list)
      by (rewrite <- app_assoc; reflexivity).
    cbn [filter]. unfold nonempty_subset at 1. cbn [snd].
    destruct (len l =? 0); cbn [negb].
    + rewrite Hpre. rewrite (IH (pre ++ [(k, l)])%list acc).
      * reflexivity.
      * rewrite <- Hpre. exact Hnd.
      * intros k' Hk'. unfold Dict.keys. rewrite map_app.
        apply in_or_app. left. apply Hacc. exact Hk'.
    + rewrite set_fresh by (intros Hin; apply Hk, Hacc, Hin).
      rewrite Hpre.
      rewrite (IH (pre ++ [(k, l)])%list (acc ++ [(k, Subset.init l 0)])%list).
      * rewrite <- app_assoc. reflexivity.
      * rewrite <- Hpre. exact Hnd.
      * intros k' Hk'. unfold Dict.keys in *. rewrite map_app in *.
        apply in_app_or in Hk'. apply in_or_app.
        destruct Hk' as [Hk'|Hk']; [left; apply Hacc; exact Hk' | right; exact Hk'].
Qed.

Lemma init_exact (dataset : Dataset.t) :
  NoDup (Dataset.get_subsets_names dataset) ->
  ViewerDataset.init dataset
  = match filter nonempty_subset (Dataset._subsets dataset) with
    | [] => Err IndexError
    | kv :: kept =>
        Ok (ViewerDataset.mk (map cursor_at_start (kv :: kept)) (fst kv))
    end.
Proof.
  destruct dataset as [folder subsets]. unfold Dataset.get_subsets_names.
  cbn [Dataset._subsets]. intros Hnd.
  unfold ViewerDataset.init, Dataset.get_subsets_names. cbn [Dataset._subsets].
  pose proof (comprehension_exact folder subsets [] [] Hnd) as Hc.
  cbn [app] in Hc. rewrite Hc by (intros k []). cbn [bind].
  destruct (filter nonempty_subset subsets) as [|[k l] kept]; [reflexivity|].
  cbn [map cursor_at_start fst snd Dict.keys]. rewrite getitem_head. reflexivity.
Qed.

(** X8.  Over a dataset (a dict, so with distinct subset names) the
    constructor of [ViewerDataset] keeps exactly the subsets that have a
    sample, in the order of the dataset's names, each with its cursor at
    0, and the current subset is the first of them; with none it raises
    [IndexError]. *)
Theorem viewer_keeps_the_nonempty_subsets_in_order (dataset : Dataset.t) :
  NoDup (Dataset.get_subsets_names dataset) ->
  ViewerDataset.init dataset
  = match filter nonempty_subset (Dataset._subsets dataset) with
    | [] => Err IndexError
    | kv :: kept =>
        Ok (ViewerDataset.mk (map cursor_at_start (kv :: kept)) (fst kv))
    end.
Proof. exact (init_exact dataset). Qed.

Lemma viewer_keeps_the_nonempty_subsets_in_order_witness :
  ViewerDataset.init dataset_train_test
  = match filter nonempty_subset (Dataset._subsets dataset_train_test) with
    | [] => Err IndexError
    | kv :: kept =>
        Ok (ViewerDataset.mk (map cursor_at_start (kv :: kept)) (fst kv))
    end.
Proof.
  apply (viewer_keeps_the_nonempty_subsets_in_order dataset_train_test).
  repeat constructor; simpl; intuition discriminate.
Defined.

(** X9.  [ViewerDataset(MSRA_TD500_dataset(folder))], once both folders
    are read: the window starts on [train] when [train] has a sample, on
    [test] when only [test] has one, and the construction raises
    [IndexError] when neither has. *)
Theorem load_viewer_starts_on_the_first_nonempty_subset
    (float : Type) (py_float : string -> option float)
    (rotate_rectangle : list (Z * Z) -> float -> list point)
    (fs : file_system) (dset_pth : string)
    (train test : list MSRA_TD500_sample) :
  MSRA_TD500_dataset.read_set float py_float rotate_rectangle fs
    (joinpath dset_pth "train") = Ok train ->
  MSRA_TD500_dataset.read_set float py_float rotate_rectangle fs
    (joinpath dset_pth "test") = Ok test ->
  match train, test with
  | x :: _, _ =>
      exists v,
        load_viewer float py_float rotate_rectangle fs dset_pth = Ok v /\
        ViewerDataset.get_current_subset_name v = "train" /\
        ViewerDataset.get_current_index v = Ok 0 /\
        ViewerDataset.get_current_sample v = Ok x /\
        ViewerDataset.available_subsets v
        = if len test =? 0 then ["train"] else ["train"; "test"]
  | [], x :: _ =>
      exists v,
        load_viewer float py_float rotate_rectangle fs dset_pth = Ok v /\
        ViewerDataset.get_current_subset_name v = "test" /\
        ViewerDataset.get_current_index v = Ok 0 /\
        ViewerDataset.get_current_sample v = Ok x /\
        ViewerDataset.available_subsets v = ["test"]
  | [], [] =>
      load_viewer float py_float rotate_rectangle fs dset_pth = Err IndexError
  end.
Proof.
  intros Htrain Htest. unfold load_viewer.
  rewrite (init_value float py_float rotate_rectangle fs dset_pth train test
             Htrain Htest).
  cbn [bind]. rewrite init_exact by (repeat constructor; simpl; intuition discriminate).
  cbn [Dataset._subsets filter].
  destruct train as [|x train]; [destruct test as [|x test]|].
  - reflexivity.
  - unfold nonempty_subset. cbn [snd].
    replace (len (@nil MSRA_TD500_sample) =? 0) with true by reflexivity.
    replace (len (x :: test) =? 0) with false
      by (symmetry; apply Z.eqb_neq; unfold len; simpl; lia).
    cbn [negb]. eexists. split; [reflexivity|].
    unfold ViewerDataset.get_current_subset_name, ViewerDataset.get_current_index,
      ViewerDataset.get_current_sample, ViewerDataset.get_current_subset,
      ViewerDataset.available_subsets, Dict.get, Subset.get_current_sample.
    cbn [ViewerDataset._subsets ViewerDataset._current_subset map cursor_at_start
         fst snd Dict.find Dict.keys String.eqb Ascii.eqb Bool.eqb bind
         Subset.init Subset._subset Subset._current_idx Subset.get_current_index].
    rewrite getitem_head. repeat split; reflexivity.
  - unfold nonempty_subset. cbn [snd].
    replace (len (x :: train) =? 0) with false
      by (symmetry; apply Z.eqb_neq; unfold len; simpl; lia).
    cbn [negb]. eexists. split; [reflexivity|].
    unfold ViewerDataset.get_current_subset_name, ViewerDataset.get_current_index,
      ViewerDataset.get_current_sample, ViewerDataset.get_current_subset,
      ViewerDataset.available_subsets, Dict.get, Subset.get_current_sample.
    cbn [ViewerDataset._subsets ViewerDataset._current_subset map cursor_at_start
         fst snd Dict.find Dict.keys String.eqb Ascii.eqb Bool.eqb bind
         Subset.init Subset._subset Subset._current_idx Subset.get_current_index].
    rewrite getitem_head.
    split; [reflexivity|]. split; [reflexivity|]. split; [reflexivity|].
    destruct (len test =? 0); reflexivity.
Qed.

Lemma load_viewer_starts_on_the_first_nonempty_subset_witness :
  exists v,
    load_viewer R py_float_decimal Geometry.rotate_rectangle fs_train_only
      "MSRA_TD500" = Ok v /\
    ViewerDataset.get_current_subset_name v = "train" /\
    ViewerDataset.get_current_index v = Ok 0 /\
    ViewerDataset.get_current_sample v
    = Ok (mkSample "MSRA_TD500/train/IMG_0001.JPG" [annot_1]) /\
    ViewerDataset.available_subsets v = ["train"].
Proof.
  exact (load_viewer_starts_on_the_first_nonempty_subset
           R py_float_decimal Geometry.rotate_rectangle fs_train_only "MSRA_TD500"
           [mkSample "MSRA_TD500/train/IMG_0001.JPG" [annot_1]] []
           read_train_only_set
           (read_set_absent_folder R py_float_decimal Geometry.rotate_rectangle
              fs_train_only "MSRA_TD500/test" eq_refl)).
Defined.

(* ================================================================== *)
(** * More on the annotation parser *)
(* ================================================================== *)

Section ParserInversion.
Variable float : Type.
Variable py_float : string -> option float.
Variable rotate_rectangle : list (Z * Z) -> float -> list point.

Let annotation := MSRA.annotation float py_float rotate_rectangle.

(** What a record that the constructor accepts looks like. *)
Lemma annotation_Ok_inv (annot_str : string) (annot : MSRA_TD500_annotation) :
  annotation annot_str = Ok annot ->
  exists t_idx t_dif t_x t_y t_w t_h t_angle i x y w h a p rest,
    split annot_str = [t_idx; t_dif; t_x; t_y; t_w; t_h; t_angle] /\
    py_int t_idx = Ok i /\
    py_int t_x = Ok x /\ py_int t_y = Ok y /\
    py_int t_w = Ok w /\ py_int t_h = Ok h /\
    py_float t_angle = Some a /\
    rotate_rectangle (MSRA.corners x y w h) a = p :: rest /\
    annot = mkAnnot (mkBase (Geometry.Rmin_list (fst p) (map fst rest))
                            (Geometry.Rmin_list (snd p) (map snd rest))
                            (Geometry.Rmax_list (fst p) (map fst rest))
                            (Geometry.Rmax_list (snd p) (map snd rest))
                            None None)
                    (t_dif =? "1")%string i.
Proof.
  unfold annotation, MSRA.annotation, MSRA.normalize_bboxes.
  destruct (split annot_str) as [|ti [|td [|tx [|ty [|tw [|th [|ta [|k t]]]]]]]] eqn:Hs;
    try (cbn [unpack7 bind]; discriminate);
    try (unfold unpack7; destruct (_ <? _)%nat; cbn [bind]; discriminate).
  cbn [unpack7 bind].
  destruct (py_int ti) as [i|] eqn:Hi; cbn [bind]; [|discriminate].
  destruct (py_int tx) as [x|] eqn:Hx; cbn [bind]; [|discriminate].
  destruct (py_int ty) as [y|] eqn:Hy; cbn [bind]; [|discriminate].
  destruct (py_int tw) as [w|] eqn:Hw; cbn [bind]; [|discriminate].
  destruct (py_int th) as [h|] eqn:Hh; cbn [bind]; [|discriminate].
  destruct (py_float ta) as [a|] eqn:Ha; cbn [bind]; [|discriminate].
  destruct (rotate_rectangle (MSRA.corners x y w h) a) as [|p rest] eqn:Hrot;
    cbn [bind py_min py_max]; [discriminate|].
  rewrite !min_from_key, !max_from_key.
  intros H; injection H as <-.
  exists ti, td, tx, ty, tw, th, ta, i, x, y, w, h, a, p, rest.
  repeat split; first [assumption | reflexivity].
Qed.

Lemma malformed_false_inv (annot_str : string) :
  malformed py_float annot_str = false ->
  exists t_idx t_dif t_x t_y t_w t_h t_angle i x y w h a,
    split annot_str = [t_idx; t_dif; t_x; t_y; t_w; t_h; t_angle] /\
    py_int t_idx = Ok i /\
    py_int t_x = Ok x /\ py_int t_y = Ok y /\
    py_int t_w = Ok w /\ py_int t_h = Ok h /\
    py_float t_angle = Some a.
Proof.
  unfold malformed.
  destruct (split annot_str) as [|ti [|td [|tx [|ty [|tw [|th [|ta [|k t]]]]]]]] eqn:Hs;
    try discriminate.
  destruct (py_int ti) as [i|] eqn:Hi; [|discriminate].
  destruct (py_int tx) as [x|] eqn:Hx; [|discriminate].
  destruct (py_int ty) as [y|] eqn:Hy; [|discriminate].
  destruct (py_int tw) as [w|] eqn:Hw; [|discriminate].
  destruct (py_int th) as [h|] eqn:Hh; [|discriminate].
  destruct (py_float ta) as [a|] eqn:Ha; [|discriminate].
  intros _. exists ti, td, tx, ty, tw, th, ta, i, x, y, w, h, a.
  repeat split; first [assumption | reflexivity].
Qed.

End ParserInversion.

Lemma rotate_rectangle_nonempty (points : list (Z * Z)) (angle : R) :
  points <> [] -> Geometry.rotate_rectangle points angle <> [].
Proof.
  destruct points as [|p0 rest]; [congruence|]. intros _. discriminate.
Qed.

(** X10.  Whatever [rotate_rectangle] returns, an annotation that the
    constructor builds has [x1 <= x2] and [y1 <= y2]. *)
Theorem annotation_box_is_ordered
    (float : Type) (py_float : string -> option float)
    (rotate_rectangle : list (Z * Z) -> float -> list point)
    (annot_str : string) (annot : MSRA_TD500_annotation) :
  MSRA.annotation float py_float rotate_rectangle annot_str = Ok annot ->
  (x1 annot <= x2 annot)%R /\ (y1 annot <= y2 annot)%R.
Proof.
  intros H.
  destruct (annotation_Ok_inv float py_float rotate_rectangle annot_str annot H)
    as (ti & td & tx & ty & tw & th & ta & i & x & y & w & h & a & p & rest
        & _ & _ & _ & _ & _ & _ & _ & _ & ->).
  cbn [x1 y1 x2 y2 base].
  pose proof (Rmin_list_le_start (fst p) (map fst rest)).
  pose proof (Rmax_list_ge_start (fst p) (map fst rest)).
  pose proof (Rmin_list_le_start (snd p) (map snd rest)).
  pose proof (Rmax_list_ge_start (snd p) (map snd rest)).
  split; lra.
Qed.

Lemma annotation_box_is_ordered_witness :
  (x1 annot_1 <= x2 annot_1)%R /\ (y1 annot_1 <= y2 annot_1)%R.
Proof.
  exact (annotation_box_is_ordered R py_float_decimal Geometry.rotate_rectangle
           record_1 annot_1 annotation_of_record_1).
Defined.

(** X11.  When [rotate_rectangle] returns a point for every non-empty
    corner list, the constructor returns an annotation exactly for the
    records that are not malformed (seven tokens, an integer index, x, y,
    w, h and a float angle), whatever the second token is; on every other
    record it raises, and what it raises is always a [ValueError]. *)
Theorem annotation_succeeds_iff_well_formed
    (float : Type) (py_float : string -> option float)
    (rotate_rectangle : list (Z * Z) -> float -> list point)
    (annot_str : string) :
  (forall points a, points <> [] -> rotate_rectangle points a <> []) ->
  is_ok (MSRA.annotation float py_float rotate_rectangle annot_str)
  = negb (malformed py_float annot_str) /\
  (forall e, MSRA.annotation float py_float rotate_rectangle annot_str = Err e ->
             exists v, e = ValueError v).
Proof.
  intros Hrot. split.
  - destruct (malformed py_float annot_str) eqn:Hm; cbn [negb].
    + destruct (malformed_raises float py_float rotate_rectangle annot_str Hm)
        as [e He].
      rewrite He. reflexivity.
    + destruct (malformed_false_inv float py_float annot_str Hm)
        as (ti & td & tx & ty & tw & th & ta & i & x & y & w & h & a
            & Hs & Hi & Hx & Hy & Hw & Hh & Ha).
      destruct (rotate_rectangle (MSRA.corners x y w h) a) as [|p rest] eqn:Hr.
      { exfalso. apply (Hrot (MSRA.corners x y w h) a); [discriminate | exact Hr]. }
      rewrite (annotation_value float py_float rotate_rectangle annot_str
                 ti td tx ty tw th ta i x y w h _ Hs Hi Hx Hy Hw Hh
                 (normalize_bboxes_value float py_float rotate_rectangle
                    x y w h ta a p rest Ha Hr)).
      reflexivity.
  - intros e. apply annotation_raises_ValueError.
Qed.

Lemma annotation_succeeds_iff_well_formed_witness :
  is_ok (annotation_of "7 x 1 2 3 4 0.5")
  = negb (malformed py_float_decimal "7 x 1 2 3 4 0.5") /\
  (forall e, annotation_of "7 x 1 2 3 4 0.5" = Err e -> exists v, e = ValueError v).
Proof.
  apply (annotation_succeeds_iff_well_formed R py_float_decimal
           Geometry.rotate_rectangle "7 x 1 2 3 4 0.5").
  intros points a. apply rotate_rectangle_nonempty.
Defined.

(* ================================================================== *)
(** * White space around a record *)
(* ================================================================== *)

Lemma split_from_space (ws tok : string) :
  all_space ws = true ->
  split_from ws tok = if (tok =? "")%string then [] else [tok].
Proof.
  revert tok. induction ws as [|c ws IH]; intros tok Hws; [reflexivity|].
  simpl in Hws. apply andb_true_iff in Hws. destruct Hws as [Hc Hws].
  cbn [split_from]. rewrite Hc.
  destruct (tok =? "")%string; rewrite (IH "" Hws); reflexivity.
Qed.

Lemma split_from_app_space (s ws tok : string) :
  all_space ws = true -> split_from (s ++ ws) tok = split_from s tok.
Proof.
  intros Hws. revert tok. induction s as [|c s IH]; intros tok.
  - apply split_from_space. exact Hws.
  - cbn [append split_from].
    destruct (isspace c); [destruct (tok =? "")%string|]; rewrite IH; reflexivity.
Qed.

Lemma split_space_app (ws s : string) :
  all_space ws = true -> split (ws ++ s) = split s.
Proof.
  unfold split. induction ws as [|c ws IH]; intros Hws; [reflexivity|].
  simpl in Hws. apply andb_true_iff in Hws. destruct Hws as [Hc Hws].
  cbn [append split_from]. rewrite Hc. cbn [String.eqb]. apply IH. exact Hws.
Qed.

Lemma annotation_depends_on_tokens
    (float : Type) (py_float : string -> option float)
    (rotate_rectangle : list (Z * Z) -> float -> list point) (s s' : string) :
  split s = split s' ->
  MSRA.annotation float py_float rotate_rectangle s
  = MSRA.annotation float py_float rotate_rectangle s'.
Proof.
  intros H. unfold MSRA.annotation. rewrite H. reflexivity.
Qed.

(** X12.  White space before and after a record does not matter: the
    constructor returns, or raises, the same on the line with and without
    it.  In particular the newline that [readlines] leaves at the end of
    each line is harmless. *)
Theorem surrounding_white_space_is_ignored
    (float : Type) (py_float : string -> option float)
    (rotate_rectangle : list (Z * Z) -> float -> list point)
    (before line after : string) :
  all_space before = true -> all_space after = true ->
  MSRA.annotation float py_float rotate_rectangle (before ++ line ++ after)
  = MSRA.annotation float py_float rotate_rectangle line.
Proof.
  intros Hb Ha. apply annotation_depends_on_tokens.
  rewrite (split_space_app before _ Hb). unfold split.
  apply split_from_app_space. exact Ha.
Qed.

Lemma surrounding_white_space_is_ignored_witness :
  annotation_of ("  " ++ "1 0 10 20 30 40 0.0" ++ nl)
  = annotation_of "1 0 10 20 30 40 0.0".
Proof.
  apply (surrounding_white_space_is_ignored R py_float_decimal
           Geometry.rotate_rectangle "  " "1 0 10 20 30 40 0.0" nl);
    reflexivity.
Defined.

(** X13.  A line of white space only (an empty line, a line of blanks)
    is not skipped: the constructor raises the [ValueError] of unpacking
    no token, and reading a file that has such a line raises a
    [ValueError]. *)
Theorem blank_line_fails_the_read
    (float : Type) (py_float : string -> option float)
    (rotate_rectangle : list (Z * Z) -> float -> list point)
    (fs : file_system) (annot_pth : string) (lines : list string)
    (blank : string) :
  readlines fs annot_pth = Some lines ->
  In blank lines ->
  all_space blank = true ->
  MSRA.annotation float py_float rotate_rectangle blank
  = Err (ValueError (NotEnoughValues 7 0)) /\
  exists v,
    MSRA_TD500_dataset.read_annotation_file float py_float rotate_rectangle
      fs annot_pth = Err (ValueError v).
Proof.
  intros Hread Hin Hblank.
  assert (Hs : split blank = []).
  { unfold split. rewrite (split_from_space blank "" Hblank). reflexivity. }
  split.
  - unfold MSRA.annotation. rewrite Hs. reflexivity.
  - destruct (read_annotation_file_raises float py_float rotate_rectangle fs
                annot_pth lines Hread) as (v & l & _ & _ & Hv).
    + apply Exists_exists. exists blank. split; [exact Hin|].
      unfold malformed. rewrite Hs. reflexivity.
    + exists v. exact Hv.
Qed.

Lemma blank_line_fails_the_read_witness :
  MSRA.annotation R py_float_decimal Geometry.rotate_rectangle nl
  = Err (ValueError (NotEnoughValues 7 0)) /\
  exists v,
    MSRA_TD500_dataset.read_annotation_file R py_float_decimal
      Geometry.rotate_rectangle
      (mkFS (fun _ => None) (fun _ => Some [record_1; nl])) "IMG_0001.gt"
    = Err (ValueError v).
Proof.
  apply (blank_line_fails_the_read R py_float_decimal Geometry.rotate_rectangle
           (mkFS (fun _ => None) (fun _ => Some [record_1; nl])) "IMG_0001.gt"
           [record_1; nl] nl).
  - reflexivity.
  - right. left. reflexivity.
  - reflexivity.
Defined.

(** X14.  When [read_annotation_file] returns, the file exists and the
    list has one annotation for each line, in the order of the lines: no
    line is left out or moved. *)
Theorem one_annotation_per_line
    (float : Type) (py_float : string -> option float)
    (rotate_rectangle : list (Z * Z) -> float -> list point)
    (fs : file_system) (annot_pth : string)
    (annots : list MSRA_TD500_annotation) :
  MSRA_TD500_dataset.read_annotation_file float py_float rotate_rectangle
    fs annot_pth = Ok annots ->
  exists lines,
    readlines fs annot_pth = Some lines /\
    List.length annots = List.length lines /\
    Forall2 (fun line annot =>
               MSRA.annotation float py_float rotate_rectangle line = Ok annot)
            lines annots.
Proof.
  unfold MSRA_TD500_dataset.read_annotation_file.
  destruct (readlines fs annot_pth) as [lines|]; cbn [bind]; [|discriminate].
  intros H. apply mapM_Ok_inv in H.
  exists lines. split; [reflexivity|]. split; [|exact H].
  symmetry. exact (Forall2_length H).
Qed.

Lemma one_annotation_per_line_witness :
  exists lines,
    readlines fs_train_only "MSRA_TD500/train/IMG_0001.gt" = Some lines /\
    List.length [annot_1] = List.length lines /\
    Forall2 (fun line annot =>
               MSRA.annotation R py_float_decimal Geometry.rotate_rectangle line
               = Ok annot)
            lines [annot_1].
Proof.
  apply (one_annotation_per_line R py_float_decimal Geometry.rotate_rectangle
           fs_train_only "MSRA_TD500/train/IMG_0001.gt" [annot_1]).
  apply read_file_of_record_1. reflexivity.
Defined.

(* ================================================================== *)
(** * The order in which the folder is listed *)
(* ================================================================== *)

Section ListingOrder.

Lemma ascii_compare_refl (c : ascii) : Ascii.compare c c = Eq.
Proof. unfold Ascii.compare. apply N.compare_refl. Qed.

Lemma ascii_compare_lt_trans (a b c : ascii) :
  Ascii.compare a b = Lt -> Ascii.compare b c = Lt -> Ascii.compare a c = Lt.
Proof.
  unfold Ascii.compare. rewrite !N.compare_lt_iff. apply N.lt_trans.
Qed.

Lemma string_leb_trans (a b c : string) :
  String.leb a b = true -> String.leb b c = true -> String.leb a c = true.
Proof.
  unfold String.leb. revert b c.
  induction a as [|x a IH]; intros [|y b] [|z c]; simpl; try congruence.
  destruct (Ascii.compare x y) eqn:Hxy; try discriminate;
    destruct (Ascii.compare y z) eqn:Hyz; try discriminate.
  - apply Ascii.compare_eq_iff in Hxy, Hyz. subst y z.
    rewrite ascii_compare_refl. apply IH.
  - apply Ascii.compare_eq_iff in Hxy. subst y. rewrite Hyz. reflexivity.
  - apply Ascii.compare_eq_iff in Hyz. subst z. rewrite Hxy. reflexivity.
  - rewrite (ascii_compare_lt_trans x y z Hxy Hyz). reflexivity.
Qed.

Lemma string_leb_false (a b : string) :
  String.leb a b = false -> String.leb b a = true.
Proof.
  intros H. destruct (String.leb_total a b) as [H'|H']; congruence.
Qed.

Lemma insert_sorted_comm (a b : string) (l : list string) :
  insert_sorted a (insert_sorted b l) = insert_sorted b (insert_sorted a l).
Proof.
  induction l as [|q l IH]; cbn [insert_sorted].
  - destruct (String.leb a b) eqn:Hab, (String.leb b a) eqn:Hba; try reflexivity.
    + now rewrite (String.leb_antisym a b Hab Hba).
    + apply string_leb_false in Hab. congruence.
  - destruct (String.leb b q) eqn:Hbq, (String.leb a q) eqn:Haq;
      cbn [insert_sorted].
    + destruct (String.leb a b) eqn:Hab, (String.leb b a) eqn:Hba;
        rewrite ?Haq, ?Hbq; try reflexivity.
      * now rewrite (String.leb_antisym a b Hab Hba).
      * apply string_leb_false in Hab. congruence.
    + destruct (String.leb a b) eqn:Hab.
      * rewrite (string_leb_trans a b q Hab Hbq) in Haq. discriminate.
      * rewrite Haq, Hbq. reflexivity.
    + destruct (String.leb b a) eqn:Hba.
      * rewrite (string_leb_trans b a q Hba Haq) in Hbq. discriminate.
      * rewrite Haq, Hbq. reflexivity.
    + rewrite Haq, Hbq. now rewrite IH.
Qed.

(** Sorting forgets the order of its input. *)
Lemma sort_of_permutation (l l' : list string) :
  Permutation l l' -> sort l = sort l'.
Proof.
  unfold sort. induction 1 as [|x l l' _ IH|x y l|l l' l'' _ IH1 _ IH2]; simpl.
  - reflexivity.
  - now rewrite IH.
  - apply insert_sorted_comm.
  - congruence.
Qed.

Lemma filter_of_permutation (keep : string -> bool) (names names' : list string) :
  Permutation names names' ->
  Permutation (filter keep names) (filter keep names').
Proof.
  induction 1 as [|n l l' _ IH|n m l|l l' l'' _ IH1 _ IH2]; simpl.
  - constructor.
  - destruct (keep n); [constructor|]; exact IH.
  - destruct (keep n), (keep m); try apply Permutation_refl. constructor.
  - eapply Permutation_trans; eauto.
Qed.

Lemma mapM_ext {A B : Type} (f g : A -> result B) (xs : list A) :
  (forall x, f x = g x) -> mapM f xs = mapM g xs.
Proof.
  intros H. induction xs as [|x xs IH]; simpl; [reflexivity|].
  now rewrite H, IH.
Qed.

End ListingOrder.

(** X15.  [read_set] does not depend on the order in which the folder
    lists its entries: two folders with the same entries, listed in any
    two orders, and the same file contents read as the same samples, or
    raise the same exception. *)
Theorem read_set_ignores_the_listing_order
    (float : Type) (py_float : string -> option float)
    (rotate_rectangle : list (Z * Z) -> float -> list point)
    (fs fs' : file_system) (set_dir : string) (names names' : list string) :
  listdir fs set_dir = Some names ->
  listdir fs' set_dir = Some names' ->
  Permutation names names' ->
  (forall p, readlines fs p = readlines fs' p) ->
  MSRA_TD500_dataset.read_set float py_float rotate_rectangle fs set_dir
  = MSRA_TD500_dataset.read_set float py_float rotate_rectangle fs' set_dir.
Proof.
  intros Hl Hl' Hperm Hread.
  assert (Hglob : forall suffix,
            sort (glob fs set_dir suffix) = sort (glob fs' set_dir suffix)).
  { intros suffix. apply sort_of_permutation. unfold glob. rewrite Hl, Hl'.
    apply Permutation_map, filter_of_permutation, Hperm. }
  unfold MSRA_TD500_dataset.read_set. rewrite !Hglob.
  apply mapM_ext. intros [annot_file img].
  unfold MSRA_TD500_dataset.read_annotation_file. rewrite Hread. reflexivity.
Qed.

Lemma read_set_ignores_the_listing_order_witness :
  MSRA_TD500_dataset.read_set R py_float_decimal Geometry.rotate_rectangle
    fs_unpaired "MSRA_TD500/train"
  = MSRA_TD500_dataset.read_set R py_float_decimal Geometry.rotate_rectangle
      fs_unpaired_reordered "MSRA_TD500/train".
Proof.
  apply (read_set_ignores_the_listing_order R py_float_decimal
           Geometry.rotate_rectangle fs_unpaired fs_unpaired_reordered
           "MSRA_TD500/train"
           ["IMG_0002.gt"; "IMG_0001.gt"; "IMG_0002.JPG"]
           ["IMG_0001.gt"; "IMG_0002.JPG"; "IMG_0002.gt"]).
  - reflexivity.
  - reflexivity.
  - apply (perm_trans (l' := ["IMG_0001.gt"; "IMG_0002.gt"; "IMG_0002.JPG"])).
    + apply perm_swap.
    + apply perm_skip. apply perm_swap.
  - reflexivity.
Defined.

(* ================================================================== *)
(** * Opening the dataset as a whole *)
(* ================================================================== *)

(** X16.  A malformed record in an annotation file that [read_set] opens,
    in the [train] folder or in the [test] folder, makes the whole
    constructor of [MSRA_TD500_dataset] raise, and with it the
    construction of the [ViewerDataset]: no dataset with the other subset
    alone is returned. *)
Theorem malformed_record_fails_the_open
    (float : Type) (py_float : string -> option float)
    (rotate_rectangle : list (Z * Z) -> float -> list point)
    (fs : file_system) (dset_folder subset annot_pth : string)
    (lines : list string) :
  subset = "train" \/ subset = "test" ->
  readlines fs annot_pth = Some lines ->
  Exists (fun l => malformed py_float l = true) lines ->
  In annot_pth (paired_annotation_files fs (joinpath dset_folder subset)) ->
  exists e,
    MSRA_TD500_dataset.init float py_float rotate_rectangle fs dset_folder
    = Err e /\
    load_viewer float py_float rotate_rectangle fs dset_folder = Err e.
Proof.
  intros Hsub Hread Hbad Hin.
  destruct (read_set_fails float py_float rotate_rectangle fs
              (joinpath dset_folder subset) annot_pth lines Hread Hbad Hin)
    as [e He].
  unfold load_viewer, MSRA_TD500_dataset.init.
  cbn [Dataset.base_init Dataset.dset_folder].
  destruct Hsub as [-> | ->].
  - exists e. rewrite He. split; reflexivity.
  - destruct (MSRA_TD500_dataset.read_set float py_float rotate_rectangle fs
                (joinpath dset_folder "train")) as [train|e'].
    + exists e. cbn [bind]. rewrite He. split; reflexivity.
    + exists e'. split; reflexivity.
Qed.

Lemma malformed_record_fails_the_open_witness :
  exists e,
    MSRA_TD500_dataset.init R py_float_decimal Geometry.rotate_rectangle
      fs_bad_test "MSRA_TD500" = Err e /\
    load_viewer R py_float_decimal Geometry.rotate_rectangle
      fs_bad_test "MSRA_TD500" = Err e.
Proof.
  apply (malformed_record_fails_the_open R py_float_decimal
           Geometry.rotate_rectangle fs_bad_test "MSRA_TD500" "test"
           "MSRA_TD500/test/IMG_0009.gt" ["2 1 0 0 10" ++ nl]).
  - right. reflexivity.
  - reflexivity.
  - apply Exists_cons_hd. reflexivity.
  - vm_compute. left. reflexivity.
Defined.

Lemma In_insert_sorted (x p : string) (l : list string) :
  In x (insert_sorted p l) -> x = p \/ In x l.
Proof.
  induction l as [|q l IH]; simpl.
  - intros [<-|[]]. left; reflexivity.
  - destruct (String.leb p q); simpl.
    + intros [<-|H]; [left; reflexivity | right; exact H].
    + intros [<-|H]; [right; left; reflexivity|].
      destruct (IH H) as [->|H']; [left; reflexivity | right; right; exact H'].
Qed.

Lemma In_sort (x : string) (l : list string) : In x (sort l) -> In x l.
Proof.
  unfold sort. induction l as [|p l IH]; simpl; [tauto|].
  intros H. destruct (In_insert_sorted _ _ _ H) as [->|H']; [left; reflexivity|].
  right. apply IH. exact H'.
Qed.

Lemma In_glob (fs : file_system) (set_dir suffix p : string) :
  In p (glob fs set_dir suffix) ->
  exists names name,
    listdir fs set_dir = Some names /\ In name names /\
    endswith name suffix = true /\ p = joinpath set_dir name.
Proof.
  unfold glob. destruct (listdir fs set_dir) as [names|]; [|intros []].
  intros H. apply in_map_iff in H. destruct H as [name [<- H]].
  apply filter_In in H. destruct H as [Hin Hend].
  exists names, name. auto.
Qed.

(** X17.  Every sample that [read_set] returns pairs an image that the
    folder lists, with a name that ends in [.JPG], with the annotations
    read from a file that the folder lists, with a name that ends in
    [.gt]: a sample never names an image that is not in the folder. *)
Theorem samples_come_from_the_folder
    (float : Type) (py_float : string -> option float)
    (rotate_rectangle : list (Z * Z) -> float -> list point)
    (fs : file_system) (set_dir : string)
    (samples : list MSRA_TD500_sample) (s : MSRA_TD500_sample) :
  MSRA_TD500_dataset.read_set float py_float rotate_rectangle fs set_dir
  = Ok samples ->
  In s samples ->
  exists names image annot_file,
    listdir fs set_dir = Some names /\
    In image names /\ endswith image ".JPG" = true /\
    img_pth s = joinpath set_dir image /\
    In annot_file names /\ endswith annot_file ".gt" = true /\
    MSRA_TD500_dataset.read_annotation_file float py_float rotate_rectangle fs
      (joinpath set_dir annot_file) = Ok (annotations s).
Proof.
  unfold MSRA_TD500_dataset.read_set. intros Hread Hin.
  apply mapM_Ok_inv in Hread.
  set (pairs := combine (sort (glob fs set_dir ".gt"))
                        (sort (glob fs set_dir ".JPG"))) in *.
  assert (Hpair : exists annot_file img,
            In (annot_file, img) pairs /\
            MSRA_TD500_dataset.read_annotation_file float py_float
              rotate_rectangle fs annot_file = Ok (annotations s) /\
            img_pth s = img).
  { clear -Hread Hin. induction Hread as [|[a i] s' pairs samples Hs _ IH].
    - destruct Hin.
    - destruct Hin as [->|Hin].
      + exists a, i. split; [left; reflexivity|].
        destruct (MSRA_TD500_dataset.read_annotation_file _ _ _ _ a)
          as [annots|e]; cbn [bind] in Hs; [|discriminate].
        injection Hs as <-. split; reflexivity.
      + destruct (IH Hin) as (a' & i' & Hin' & H'). exists a', i'.
        split; [right; exact Hin' | exact H']. }
  destruct Hpair as (annot_file & img & Hin' & Hann & Himg).
  pose proof (in_combine_l _ _ _ _ Hin') as Hgt.
  pose proof (in_combine_r _ _ _ _ Hin') as Hjpg.
  apply In_sort, In_glob in Hgt. apply In_sort, In_glob in Hjpg.
  destruct Hgt as (names & aname & Hl & Hain & Haend & ->).
  destruct Hjpg as (names' & iname & Hl' & Hiin & Hiend & ->).
  assert (names' = names) by congruence. subst names'.
  exists names, iname, aname. repeat split; assumption.
Qed.

Lemma samples_come_from_the_folder_witness :
  exists names image annot_file,
    listdir fs_unpaired "MSRA_TD500/train" = Some names /\
    In image names /\ endswith image ".JPG" = true /\
    img_pth (mkSample "MSRA_TD500/train/IMG_0002.JPG" [annot_1])
    = joinpath "MSRA_TD500/train" image /\
    In annot_file names /\ endswith annot_file ".gt" = true /\
    MSRA_TD500_dataset.read_annotation_file R py_float_decimal
      Geometry.rotate_rectangle fs_unpaired
      (joinpath "MSRA_TD500/train" annot_file)
    = Ok (annotations (mkSample "MSRA_TD500/train/IMG_0002.JPG" [annot_1])).
Proof.
  apply (samples_come_from_the_folder R py_float_decimal
           Geometry.rotate_rectangle fs_unpaired "MSRA_TD500/train"
           [mkSample "MSRA_TD500/train/IMG_0002.JPG" [annot_1]]).
  - exact read_unpaired_set.
  - left. reflexivity.
Defined.

(* ================================================================== *)
(** * Drawing the boxes *)
(* ================================================================== *)



Section Drawing.
Variable Label : Type.
Variable label_eq : Label -> Label -> bool.
Variable str : Label -> string.
Variable Conf : Type.
Variable format_2f : Conf -> string.
Variable Coord : Type.
Variable int : Coord -> Z.

Let Bbox := Draw.Bbox Coord.
Let draw_from := Draw.draw_from Label label_eq str Conf format_2f Coord int.
Let draw_one := Draw.draw_one Label label_eq str Conf format_2f Coord int.
Let contains := Draw.contains Label label_eq.






End Drawing.





